(** * Research-result caching, parsing and fallback of the tool researcher

    A shallow embedding of the three researcher variants of the repository

      - [Core]  : src/core/tool_researcher.py
      - [Root]  : src/tool_researcher.py
      - [Final] : src/core/tool_researcher_final.py

    together with the Python built-ins they rely on ([Py]), the
    structured-text parser that [Root] and [Final] share ([Parser]), and
    the date window and the report file of the audit

      - [Main]   : src/simple_audit_main.py
      - [Report] : src/core/report_writer.py *)

From Stdlib Require Import ZArith NArith List Ascii String Bool Lia.
From stdpp Require Import gmap strings list.

Local Open Scope string_scope.

(** ** Python built-ins used by the source *)

Module Py.

(** A [str] is modelled as a [string] whose characters are the code points
    below 256; on that range [str.lower] and [str.isspace] act character by
    character as written here. *)

Definition code (c : ascii) : N := N_of_ascii c.

Definition isupper (c : ascii) : bool :=
  let n := code c in
  ((65 <=? n) && (n <=? 90) ||
   (192 <=? n) && (n <=? 222) && negb (n =? 215))%N.

Definition lower_char (c : ascii) : ascii :=
  if isupper c then ascii_of_N (code c + 32) else c.

Definition isspace (c : ascii) : bool :=
  let n := code c in
  ((9 <=? n) && (n <=? 13) || (28 <=? n) && (n <=? 32) ||
   (n =? 133) || (n =? 160))%N.

Fixpoint map_chars (f : ascii -> ascii) (s : string) : string :=
  match s with
  | EmptyString => EmptyString
  | String c s' => String (f c) (map_chars f s')
  end.

(** [s.lower()] *)
Definition lower (s : string) : string := map_chars lower_char s.

(** [s.replace(a, b)] for one-character [a] and [b] *)
Definition replace_char (a b : ascii) (s : string) : string :=
  map_chars (fun c => if Ascii.eqb c a then b else c) s.

Fixpoint all_chars (p : ascii -> bool) (s : string) : bool :=
  match s with
  | EmptyString => true
  | String c s' => p c && all_chars p s'
  end.

Fixpoint lstrip (s : string) : string :=
  match s with
  | EmptyString => EmptyString
  | String c s' => if isspace c then lstrip s' else s
  end.

Fixpoint rstrip (s : string) : string :=
  match s with
  | EmptyString => EmptyString
  | String c s' => if all_chars isspace s then EmptyString else String c (rstrip s')
  end.

(** [s.strip()] *)
Definition strip (s : string) : string := rstrip (lstrip s).

Fixpoint drop (n : nat) (s : string) : string :=
  match n, s with
  | O, _ => s
  | S _, EmptyString => EmptyString
  | S n', String _ s' => drop n' s'
  end.

(** [s.partition(sep)] when [sep] occurs in [s]: the text before and after
    the leftmost occurrence; [None] when [sep] does not occur. *)
Fixpoint partition (sep s : string) : option (string * string) :=
  if String.prefix sep s then Some (EmptyString, drop (String.length sep) s)
  else match s with
       | EmptyString => None
       | String c s' =>
           match partition sep s' with
           | Some (a, b) => Some (String c a, b)
           | None => None
           end
       end.

(** [sep in s] *)
Definition contains (sep s : string) : bool :=
  match partition sep s with Some _ => true | None => false end.

(** [s.split(sep)] for a non-empty [sep]: cut at the leftmost occurrence and
    go on with the rest. Every cut removes at least one character, so
    [S (length s)] rounds are enough. *)
Fixpoint split_fuel (fuel : nat) (sep s : string) : list string :=
  match fuel with
  | O => [s]
  | S fuel' =>
      match partition sep s with
      | None => [s]
      | Some (a, b) => a :: split_fuel fuel' sep b
      end
  end.

Definition split (sep s : string) : list string :=
  split_fuel (S (String.length s)) sep s.

(** [sep.join(l)] *)
Fixpoint join (sep : string) (l : list string) : string :=
  match l with
  | [] => EmptyString
  | [x] => x
  | x :: l' => x ++ sep ++ join sep l'
  end.

(** JSON-like Python values: what [json.load] returns and [json.dump]
    accepts. A [dict] keeps its insertion order. *)
#[warnings="-register-all"]
Inductive value : Type :=
  | VNone
  | VBool (b : bool)
  | VNum (z : Z)
  | VStr (s : string)
  | VList (l : list value)
  | VDict (d : list (string * value)).

Definition dict : Type := list (string * value).

(** Truth value of an object, as tested by [if x:] and [not x]. *)
Definition truthy (v : value) : bool :=
  match v with
  | VNone => false
  | VBool b => b
  | VNum z => negb (z =? 0)%Z
  | VStr s => negb (String.eqb s EmptyString)
  | VList l => match l with [] => false | _ => true end
  | VDict d => match d with [] => false | _ => true end
  end.

(** [k in d] and [d.get(k)] ([None] of Python is [VNone]). *)
Fixpoint dict_lookup (k : string) (d : dict) : option value :=
  match d with
  | [] => None
  | (k', v) :: d' => if String.eqb k k' then Some v else dict_lookup k d'
  end.

Definition dict_get (k : string) (d : dict) : value :=
  match dict_lookup k d with Some v => v | None => VNone end.

Definition dict_has (k : string) (d : dict) : bool :=
  match dict_lookup k d with Some _ => true | None => false end.

(** [d[k] = v]: replaces the value of an existing key in place, appends a
    new key. *)
Fixpoint dict_set (k : string) (v : value) (d : dict) : dict :=
  match d with
  | [] => [(k, v)]
  | (k', v') :: d' =>
      if String.eqb k k' then (k, v) :: d' else (k', v') :: dict_set k v d'
  end.

End Py.

Import Py.


(** ** Data shared by the three variants *)

Module Model.

(** Points in time and durations are counted in microseconds, the resolution
    of [datetime] and [timedelta]; a point in time is the distance from
    [datetime.min]. *)
Definition usec_per_day : Z := 86400000000.

(** The default of the constructor argument [cache_duration_days]. *)
Definition default_cache_duration_days : Z := 30.

(** [timedelta(days=n)] *)
Definition timedelta_days (n : Z) : Z := n * usec_per_day.

(** The ['cached_at'] entry of a persisted document as
    [datetime.fromisoformat] sees it: the key is missing, the text is not a
    timestamp the subtraction from [datetime.now()] accepts (an exception),
    or it denotes the point [t]. *)
Inductive Stamp : Type :=
  | NoStamp
  | BadStamp
  | StampAt (t : Z).

(** A persisted cache document. [None] is a missing key; the results are
    whatever JSON value the file holds under ['results']: the readers
    return it unexamined. *)
Record CacheDoc : Type := mkDoc {
  doc_cached_at  : Stamp;
  doc_tool_name  : option string;
  doc_date_range : option value;
  doc_cache_key  : option string;
  doc_results    : option value
}.

(** What the file of a cache key holds: something [open] or [json.load]
    rejects (or JSON that is not an object), or a document. *)
Inductive CacheFile : Type :=
  | Unreadable
  | Doc (d : CacheDoc).

(** The brief handed to the external research capability: the parameters
    the prompt of [_research_via_web] is built from. *)
Record Request : Type := mkRequest {
  req_tool_name  : string;
  req_tool_type  : string;
  req_year_start : string;
  req_year_end   : string;
  req_depth      : string
}.

(** What building and running the crew does: [Task(...)] raises,
    [Crew(...)] raises, [crew.kickoff()] raises (each with the text of
    [str(e)]), or the run returns its output text. *)
Inductive Outcome : Type :=
  | TaskRaises (msg : string)
  | CrewRaises (msg : string)
  | KickoffRaises (msg : string)
  | Returns (text : string).

Inductive Call : Type :=
  | Research (r : Request)
  | Analysis (text : string).

(** Modelled from the spec: the registry module core/api_changelog_registry
    is not part of the sources. Its descriptor is
    {endpoint: URL-or-absent, auth_required: boolean}. *)
Record EndpointDescriptor : Type := mkEndpoint {
  endpoint      : option string;
  auth_required : bool
}.

(** The collaborators of a researcher object. *)
Record Env : Type := mkEnv {
  (** constructor argument [cache_duration_days] *)
  cache_duration_days : Z;
  (** whether the cache file of a key can be opened for writing *)
  writable : string -> bool;
  (** [api_registry.has_api_endpoint] and [api_registry.get_endpoint] *)
  has_api_endpoint : string -> bool;
  get_endpoint : string -> option EndpointDescriptor;
  (** the research crew *)
  crew : Request -> Outcome;
  (** [json.loads] on the text of a JSON object: the message of the
      [JSONDecodeError] or the object *)
  json_loads : string -> string + dict;
  (** the analysis crew of the root variant followed by [json.loads]:
      [None] when any of it raises, else the decoded value *)
  analysis : string -> option value;
  (** the time a call of the external capability takes, in microseconds *)
  took : Call -> N;
  (** [datetime.isoformat] *)
  isoformat : Z -> string
}.

(** The mutable surroundings: the cache directory (one file per key), the
    clock, the calls of the external capability so far, and the seconds
    asked of [asyncio.sleep] so far. *)
Record World : Type := mkWorld {
  files : gmap string CacheFile;
  now   : Z;
  calls : list Call;
  slept : Z
}.

Definition set_files (f : gmap string CacheFile) (w : World) : World :=
  mkWorld f (now w) (calls w) (slept w).

(** A call of the external capability: it is recorded, and the clock has
    moved on by the time it took when it comes back, whether it returns or
    raises. *)
Definition call (env : Env) (c : Call) (w : World) : World :=
  mkWorld (files w) (now w + Z.of_N (took env c)) (calls w ++ [c]) (slept w).

(** The same world when the clock reads [t]. *)
Definition at_time (t : Z) (w : World) : World :=
  mkWorld (files w) t (calls w) (slept w).

(** [asyncio.sleep(seconds)] *)
Definition sleep (seconds : Z) (w : World) : World :=
  mkWorld (files w) (now w + seconds * 1000000) (calls w) (slept w + seconds).

(** Computations that read and change the world and either raise an
    exception, kept as the text of [str(e)], or return. *)
Definition M (A : Type) : Type := World -> (string + A) * World.

Definition ret {A} (a : A) : M A := fun w => (inr a, w).

Definition raise {A} (msg : string) : M A := fun w => (inl msg, w).

Definition bind {A B} (m : M A) (k : A -> M B) : M B :=
  fun w => match m w with
           | (inl e, w') => (inl e, w')
           | (inr a, w') => k a w'
           end.

(** [try: m  except Exception as e: h(str(e))] *)
Definition try_except {A} (m : M A) (h : string -> M A) : M A :=
  fun w => match m w with
           | (inl e, w') => h e w'
           | (inr a, w') => (inr a, w')
           end.

Definition get_world : M World := fun w => (inr w, w).

Definition modify (f : World -> World) : M unit := fun w => (inr tt, f w).

(** The age test of every cache reader:
    [datetime.now() - cached_time < self.cache_duration]. *)
Definition is_fresh (env : Env) (now cached_time : Z) : bool :=
  (now - cached_time <? timedelta_days (cache_duration_days env))%Z.

(** [value == [start, end]] for two strings: only a two-element list of
    equal strings compares equal. *)
Definition eq_date_range (v : value) (start_date end_date : string) : bool :=
  match v with
  | VList [VStr a; VStr b] => String.eqb a start_date && String.eqb b end_date
  | _ => false
  end.

End Model.

Import Model.

Notation "'let*' x ':=' m 'in' k" := (bind m (fun x => k))
  (at level 10, x name, m at level 100, k at level 200).

(** ** The structured-text parser (shared by [Root] and [Final])

    Lines 344-395 of src/tool_researcher.py and lines 253-304 of
    src/core/tool_researcher_final.py are the same code. *)

Module Parser.

(** The one-character string of a line feed. *)
Definition nl : string := String (ascii_of_nat 10) EmptyString.

Definition no_updates_patterns : list string :=
  [ "no public updates found";
    "no updates found";
    "could not find";
    "no information available";
    "no public changelog";
    "no verifiable updates" ].

(** [any(pattern in output_text.lower() for pattern in no_updates_patterns)] *)
Definition says_no_updates (output_text : string) : bool :=
  existsb (fun pattern => contains pattern (lower output_text))
          no_updates_patterns.

(** [output_text.split('---')] *)
Definition sections (output_text : string) : list string :=
  split "---" output_text.

(** The body of [for line in lines]. *)
Definition parse_line (update : dict) (line : string) : dict :=
  let line := strip line in
  if String.eqb line EmptyString || negb (contains ":" line) then update
  else
    match partition ":" line with
    | None => update
    | Some (key, value) =>
        let key := lower (strip key) in
        let value := VStr (strip value) in
        if contains "feature" key || contains "name" key then
          dict_set "feature_name" value update
        else if contains "date" key || contains "released" key then
          dict_set "release_date" value update
        else if contains "url" key || contains "source" key then
          dict_set "source_url" value update
        else if contains "description" key then
          dict_set "description" value update
        else if contains "automation" key || contains "value" key then
          dict_set "automation_value" value update
        else update
    end.

(** The body of [for section in sections]: the record the section yields,
    if any. *)
Definition parse_section (section : string) : option dict :=
  if String.eqb (strip section) EmptyString then None
  else
    let update := fold_left parse_line (split nl section) [] in
    if truthy (dict_get "feature_name" update) then Some update else None.

Definition records_of (secs : list string) : list dict :=
  omap parse_section secs.

Definition structured_updates (output_text : string) : list dict :=
  records_of (sections output_text).

End Parser.

(** ** src/core/tool_researcher.py *)

Module Core.

Section Researcher.

Variable env : Env.

Definition _normalize_tool_name (tool_name : string) : string :=
  replace_char " " "_" (strip (lower tool_name)).

(** [datetime.fromisoformat('2000-01-01')]: day 730119 after
    [datetime.min]. *)
Definition default_cached_at : Z := 730119 * usec_per_day.

Definition cached_time (s : Stamp) : option Z :=
  match s with
  | NoStamp => Some default_cached_at
  | BadStamp => None
  | StampAt t => Some t
  end.

Definition _load_cache (w : World) (tool_name : string)
    (date_range : string * string) : option value :=
  let cache_key := _normalize_tool_name tool_name in
  match files w !! cache_key with
  | None => None
  | Some Unreadable => None
  | Some (Doc cached) =>
      match cached_time (doc_cached_at cached) with
      | None => None
      | Some t =>
          if is_fresh env (now w) t then
            match doc_date_range cached with
            | Some r =>
                if eq_date_range r (fst date_range) (snd date_range)
                then doc_results cached else None
            | None => None
            end
          else None
      end
  end.

Definition _save_cache (w : World) (tool_name : string)
    (date_range : string * string) (results : dict) : World :=
  let cache_key := _normalize_tool_name tool_name in
  if writable env cache_key then
    let cache_data :=
      mkDoc (StampAt (now w)) (Some tool_name)
            (Some (VList [VStr (fst date_range); VStr (snd date_range)]))
            None (Some (VDict results)) in
    set_files (<[cache_key := Doc cache_data]> (files w)) w
  else w.

Definition auth_failure : dict :=
  [ ("success", VBool false);
    ("error", VStr "Authentication required but credentials not configured");
    ("needs_setup", VBool true) ].

Definition api_placeholder (tool_name url : string) : dict :=
  [ ("success", VBool true);
    ("source", VStr "api");
    ("tool_name", VStr tool_name);
    ("endpoint", VStr url);
    ("updates_found", VList []);
    ("note", VStr "API integration not yet implemented - use web research") ].

Definition _research_via_api (tool_name : string) : dict :=
  match get_endpoint env tool_name with
  | None => [("success", VBool false); ("error", VStr "No API endpoint available")]
  | Some endpoint_info =>
      match endpoint endpoint_info with
      | None => [("success", VBool false); ("error", VStr "No API endpoint available")]
      | Some url =>
          if String.eqb url EmptyString then
            [("success", VBool false); ("error", VStr "No API endpoint available")]
          else if auth_required endpoint_info then auth_failure
          else api_placeholder tool_name url
      end
  end.

(** The text [re.search(r'\{.*\}', output_str, re.DOTALL)] matches: from
    the first opening brace to the last closing brace after it. *)
Fixpoint upto_last (c : ascii) (s : string) : option string :=
  match s with
  | EmptyString => None
  | String x s' =>
      match upto_last c s' with
      | Some r => Some (String x r)
      | None => if Ascii.eqb x c then Some (String x EmptyString) else None
      end
  end.

Definition json_match (output_str : string) : option string :=
  match partition "{" output_str with
  | None => None
  | Some (_, rest) =>
      match upto_last "}" rest with
      | None => None
      | Some body => Some (String "{" body)
      end
  end.

(** [len(v)]: the message of the [TypeError] for objects without a
    length. *)
Definition len_error (v : value) : option string :=
  match v with
  | VNone => Some "object of type 'NoneType' has no len()"
  | VBool _ => Some "object of type 'bool' has no len()"
  | VNum _ => Some "object of type 'int' has no len()"
  | _ => None
  end.

Definition set_default (k : string) (v : value) (d : dict) : dict :=
  if dict_has k d then d else dict_set k v d.

Definition web_failure (tool_name msg : string) : dict :=
  [ ("success", VBool false);
    ("tool_name", VStr tool_name);
    ("source", VStr "web_research");
    ("error", VStr msg);
    ("updates", VList []) ].

Definition year_of (date : string) : string :=
  hd EmptyString (split "-" date).

Definition _research_via_web (tool_name tool_type start_date end_date
    research_depth : string) : M dict :=
  let request :=
    mkRequest tool_name tool_type (year_of start_date) (year_of end_date)
              research_depth in
  let* _ := modify (call env (Research request)) in
  match crew env request with
  | TaskRaises msg => raise msg
  | CrewRaises msg | KickoffRaises msg => ret (web_failure tool_name msg)
  | Returns output_str =>
      let decoded :=
        match json_match output_str with
        | Some text => json_loads env text
        | None =>
            inr [ ("success", VBool false);
                  ("error", VStr "Could not parse result as JSON") ]
        end in
      match decoded with
      | inl msg =>
          ret [ ("success", VBool false);
                ("tool_name", VStr tool_name);
                ("source", VStr "web_research");
                ("error", VStr ("JSON parse error: " ++ msg));
                ("raw_output", VStr (String.substring 0 500 output_str)) ]
      | inr parsed =>
          let parsed := set_default "success" (VBool true) parsed in
          let parsed := set_default "tool_name" (VStr tool_name) parsed in
          let parsed := set_default "source" (VStr "web_research") parsed in
          let parsed := set_default "updates" (VList []) parsed in
          match len_error (dict_get "updates" parsed) with
          | Some msg => ret (web_failure tool_name msg)
          | None => ret parsed
          end
      end
  end.

(** [if cached_results:] whatever the cache file held is a hit when it is
    truthy. *)
Definition cache_hit (cached : option value) : option value :=
  match cached with
  | Some cached_results =>
      if truthy cached_results then Some cached_results else None
  | None => None
  end.

Definition research_tool_updates (tool_name tool_type start_date end_date
    research_depth : string) : M value :=
  let date_range := (start_date, end_date) in
  let* w := get_world in
  match cache_hit (_load_cache w tool_name date_range) with
  | Some cached_results => ret cached_results
  | None =>
      let via_web :=
        let* web_results :=
          _research_via_web tool_name tool_type start_date end_date
                            research_depth in
        let* _ := modify (fun w => _save_cache w tool_name date_range web_results) in
        ret (VDict web_results) in
      if has_api_endpoint env tool_name then
        let api_results := _research_via_api tool_name in
        if truthy (dict_get "success" api_results) then
          let* _ := modify (fun w => _save_cache w tool_name date_range api_results) in
          ret (VDict api_results)
        else via_web
      else via_web
  end.

End Researcher.

End Core.

(** ** src/tool_researcher.py *)

Module Root.

(** A tool of the stack: a dictionary from strings to strings. *)
Definition Tool : Type := list (string * string).

(** [tool.get(k, default)] *)
Fixpoint tool_get (k default : string) (tool : Tool) : string :=
  match tool with
  | [] => default
  | (k', v) :: tool' => if String.eqb k k' then v else tool_get k default tool'
  end.

(** The dictionary [research_tool_stack] returns; [results] is the
    dictionary from tool names to what their research gave, in the order in
    which the names were first recorded. *)
Record StackResult : Type := mkStackResult {
  total_tools : nat;
  successful  : nat;
  failed      : nat;
  results     : dict;
  date_range  : string;
  timestamp   : string
}.

Section Researcher.

Variable env : Env.

Definition cache_key (tool_name : string) (date_range : string * string)
    : string :=
  replace_char " " "_" (lower tool_name)
    ++ "_" ++ fst date_range ++ "_" ++ snd date_range.

(** [datetime.fromisoformat('1970-01-01')]: day 719162 after
    [datetime.min]. *)
Definition default_cached_at : Z := 719162 * usec_per_day.

Definition cached_time (s : Stamp) : option Z :=
  match s with
  | NoStamp => Some default_cached_at
  | BadStamp => None
  | StampAt t => Some t
  end.

Definition _load_cache (w : World) (tool_name : string)
    (date_range : string * string) : option value :=
  match files w !! cache_key tool_name date_range with
  | None => None
  | Some Unreadable => None
  | Some (Doc data) =>
      match cached_time (doc_cached_at data) with
      | None => None
      | Some t => if is_fresh env (now w) t then doc_results data else None
      end
  end.

Definition _save_cache (w : World) (tool_name : string)
    (date_range : string * string) (results : dict) : World :=
  let key := cache_key tool_name date_range in
  if writable env key then
    let data :=
      mkDoc (StampAt (now w)) (Some tool_name)
            (Some (VList [VStr (fst date_range); VStr (snd date_range)]))
            None (Some (VDict results)) in
    set_files (<[key := Doc data]> (files w)) w
  else w.

(** Lines 179-216 repeat lines 195-232 of the core variant. *)
Definition _research_via_api (tool_name : string) : dict :=
  Core._research_via_api env tool_name.

Definition _parse_agent_output (output_text : string) : M (list value) :=
  if Parser.says_no_updates output_text then ret []
  else
    match Parser.structured_updates output_text with
    | u :: updates => ret (map VDict (u :: updates))
    | [] =>
        let* _ := modify (call env (Analysis output_text)) in
        match analysis env output_text with
        | Some (VList (u :: parsed_updates)) => ret (u :: parsed_updates)
        | _ => ret []
        end
    end.

Definition web_failure (tool_name msg : string) : dict :=
  [ ("success", VBool false);
    ("error", VStr msg);
    ("tool_name", VStr tool_name);
    ("updates", VList []) ].

Definition _research_via_web (tool_name tool_type start_date end_date
    research_depth : string) : M dict :=
  let request :=
    mkRequest tool_name tool_type (Core.year_of start_date)
              (Core.year_of end_date) research_depth in
  let* _ := modify (call env (Research request)) in
  match crew env request with
  | TaskRaises msg | CrewRaises msg => raise msg
  | KickoffRaises msg => ret (web_failure tool_name msg)
  | Returns research_output =>
      let* structured_updates := _parse_agent_output research_output in
      let* w := get_world in
      ret [ ("success", VBool true);
            ("source", VStr "web_search");
            ("tool_name", VStr tool_name);
            ("tool_type", VStr tool_type);
            ("date_range", VStr (start_date ++ " to " ++ end_date));
            ("research_depth", VStr research_depth);
            ("updates", VList structured_updates);
            ("raw_output", VStr research_output);
            ("timestamp", VStr (isoformat env (now w))) ]
  end.

Definition research_tool_updates (tool_name tool_type start_date end_date
    research_depth : string) : M value :=
  let date_range := (start_date, end_date) in
  let* w := get_world in
  match Core.cache_hit (_load_cache w tool_name date_range) with
  | Some cached_results => ret cached_results
  | None =>
      let via_web :=
        let* web_results :=
          _research_via_web tool_name tool_type start_date end_date
                            research_depth in
        let* _ := modify (fun w => _save_cache w tool_name date_range web_results) in
        ret (VDict web_results) in
      if has_api_endpoint env tool_name then
        let api_results := _research_via_api tool_name in
        if truthy (dict_get "success" api_results) then
          let* _ := modify (fun w => _save_cache w tool_name date_range api_results) in
          ret (VDict api_results)
        else via_web
      else via_web
  end.

Definition name_of (tool : Tool) : string :=
  tool_get "name" (tool_get "Tool Name" "" tool) tool.

Definition type_of (tool : Tool) : string :=
  tool_get "type" (tool_get "Tool Type" "unknown" tool) tool.

(** The entry the [except] branch of the stack loop records. *)
Definition stack_failure (msg : string) : dict :=
  [ ("success", VBool false); ("error", VStr msg) ].

(** One round of [for tool in tools]: [results[tool_name] = ...] keeps the
    place of a name already recorded and appends a new one. *)
Definition stack_step (start_date end_date research_depth : string)
    (results : dict) (tool : Tool) : M dict :=
  let tool_name := name_of tool in
  let tool_type := type_of tool in
  try_except
    (let* research_result :=
       research_tool_updates tool_name tool_type start_date end_date
                             research_depth in
     let* _ := modify (sleep 1) in
     ret (dict_set tool_name research_result results))
    (fun msg => ret (dict_set tool_name (VDict (stack_failure msg)) results)).

Fixpoint stack_loop (start_date end_date research_depth : string)
    (tools : list Tool) (results : dict) : M dict :=
  match tools with
  | [] => ret results
  | tool :: rest =>
      let* results := stack_step start_date end_date research_depth results tool in
      stack_loop start_date end_date research_depth rest results
  end.

(** [results.values()] *)
Definition values (results : dict) : list value := map snd results.

(** [r.get('success')]: a dictionary answers; any other object has no
    attribute [get], and the lookup raises [AttributeError] with this
    text. *)
Definition get_success (r : value) : string + value :=
  match r with
  | VDict d => inr (dict_get "success" d)
  | VNone => inl "'NoneType' object has no attribute 'get'"
  | VBool _ => inl "'bool' object has no attribute 'get'"
  | VNum _ => inl "'int' object has no attribute 'get'"
  | VStr _ => inl "'str' object has no attribute 'get'"
  | VList _ => inl "'list' object has no attribute 'get'"
  end.

(** [len([r for r in values if keep(r.get('success'))])]: the values are
    visited in order, and the first one without [get] raises. *)
Fixpoint count_where (keep : value -> bool) (values : list value)
    : string + nat :=
  match values with
  | [] => inr O
  | r :: rest =>
      match get_success r with
      | inl msg => inl msg
      | inr success =>
          match count_where keep rest with
          | inl msg => inl msg
          | inr n => inr (if keep success then S n else n)
          end
      end
  end.

(** Lines 455-511. The two counts are computed after the loop, outside its
    [try]. *)
Definition research_tool_stack (tools : list Tool) (start_date end_date
    research_depth : string) : M StackResult :=
  let* results := stack_loop start_date end_date research_depth tools [] in
  match count_where truthy (values results) with
  | inl msg => raise msg
  | inr successful =>
      match count_where (fun success => negb (truthy success))
                        (values results) with
      | inl msg => raise msg
      | inr failed =>
          let* w := get_world in
          ret (mkStackResult
                 (length tools) successful failed results
                 (start_date ++ " to " ++ end_date)
                 (isoformat env (now w)))
      end
  end.

End Researcher.

End Root.

(** ** src/core/tool_researcher_final.py *)

Module Final.

Section Researcher.

Variable env : Env.

Definition _parse_agent_output (output_text : string) : list dict :=
  if Parser.says_no_updates output_text then []
  else Parser.structured_updates output_text.

(** [cached_data['cached_at']] raises [KeyError] when the key is missing;
    like every exception of the read it ends in [None]. *)
Definition _check_cache (w : World) (cache_key : string) : option CacheDoc :=
  match files w !! cache_key with
  | None => None
  | Some Unreadable => None
  | Some (Doc cached_data) =>
      match doc_cached_at cached_data with
      | StampAt t => if is_fresh env (now w) t then Some cached_data else None
      | _ => None
      end
  end.

Definition _save_to_cache (w : World) (cache_key : string) (result : dict)
    : World :=
  let cache_data :=
    mkDoc (StampAt (now w)) None None (Some cache_key) (Some (VDict result)) in
  if writable env cache_key then
    set_files (<[cache_key := Doc cache_data]> (files w)) w
  else w.

(** Lines 133-242: the web path of the final variant. [Task(...)] and
    [Crew(...)] are built before the [try]. *)
Definition _research_via_web (tool_name tool_type start_date end_date
    research_depth : string) : M dict :=
  let request :=
    mkRequest tool_name tool_type (Core.year_of start_date)
              (Core.year_of end_date) research_depth in
  let* _ := modify (call env (Research request)) in
  match crew env request with
  | TaskRaises msg | CrewRaises msg => raise msg
  | KickoffRaises msg =>
      ret [ ("success", VBool false);
            ("error", VStr msg);
            ("tool_name", VStr tool_name);
            ("updates", VList []) ]
  | Returns research_output =>
      let structured_updates := _parse_agent_output research_output in
      let* w := get_world in
      ret [ ("success", VBool true);
            ("source", VStr "web_search");
            ("tool_name", VStr tool_name);
            ("tool_type", VStr tool_type);
            ("date_range", VStr (start_date ++ " to " ++ end_date));
            ("research_depth", VStr research_depth);
            ("updates", VList (map VDict structured_updates));
            ("raw_output", VStr research_output);
            ("timestamp", VStr (isoformat env (now w))) ]
  end.

End Researcher.

End Final.

(** ** src/simple_audit_main.py *)

Module Main.

(** A calendar date, the part of a [datetime] that
    [_calculate_date_window] uses. *)
Record Date : Type := mkDate {
  year  : Z;
  month : Z;
  day   : Z
}.

Definition is_leap (y : Z) : bool :=
  ((y mod 4 =? 0) && (negb (y mod 100 =? 0) || (y mod 400 =? 0)))%Z.

Definition days_in_month (y m : Z) : Z :=
  if (m =? 2)%Z then (if is_leap y then 29 else 28)%Z
  else if ((m =? 4) || (m =? 6) || (m =? 9) || (m =? 11))%Z then 30%Z
  else 31%Z.

(** [datetime(year, month, day)]: [None] is the [ValueError] for a year
    outside 1..9999, a month outside 1..12 or a day the month has not. *)
Definition datetime (y m d : Z) : option Date :=
  if ((1 <=? y) && (y <=? 9999) && (1 <=? m) && (m <=? 12)
      && (1 <=? d) && (d <=? days_in_month y m))%Z
  then Some (mkDate y m d) else None.

Definition digit (n : Z) : ascii := ascii_of_N (48 + Z.to_N n).

(** The decimal digits of a number of at most [S fuel] digits. *)
Fixpoint decimal (fuel : nat) (n : Z) : string :=
  match fuel with
  | O => String (digit (n mod 10)) EmptyString
  | S fuel' =>
      if (n <? 10)%Z then String (digit n) EmptyString
      else decimal fuel' (n / 10) ++ String (digit (n mod 10)) EmptyString
  end.

Definition two_digits (n : Z) : string :=
  String (digit (n / 10)) (String (digit (n mod 10)) EmptyString).

(** [d.strftime("%Y-%m-%d")]: the year in decimal (four digits from the
    year 1000 on), month and day with two digits. *)
Definition strftime_ymd (d : Date) : string :=
  decimal 3 (year d) ++ "-" ++ two_digits (month d) ++ "-"
  ++ two_digits (day d).

(** Lines 37-45. [today] is the date [datetime.now()] reports; [None] is
    the [ValueError] of the [datetime(...)] call. *)
Definition _calculate_date_window (research_window_years : Z) (today : Date)
    : option (string * string) :=
  match datetime (year today - research_window_years) (month today)
                 (day today) with
  | None => None
  | Some start_date => Some (strftime_ymd start_date, strftime_ymd today)
  end.

(** Lines 218-241. *)
Definition _infer_tool_type (category : string) : string :=
  let category_lower := lower category in
  if contains "crm" category_lower then "crm"
  else if contains "portfolio" category_lower then "portfolio_management"
  else if contains "research" category_lower then "research_platform"
  else if contains "custod" category_lower || contains "trading" category_lower
  then "custodial"
  else if contains "planning" category_lower then "financial_planning"
  else if contains "communication" category_lower
          || contains "video" category_lower
  then "communication"
  else if contains "productivity" category_lower
          || contains "office" category_lower
  then "productivity_suite"
  else if contains "operation" category_lower
          || contains "accounting" category_lower
  then "operations"
  else if contains "compliance" category_lower then "compliance"
  else "unknown".

Definition tool_types : list string :=
  [ "crm"; "portfolio_management"; "research_platform"; "custodial";
    "financial_planning"; "communication"; "productivity_suite";
    "operations"; "compliance"; "unknown" ].

End Main.

(** ** src/core/report_writer.py *)

Module Report.

(** [client_name.replace(" ", "_").replace("/", "_")] *)
Definition safe_client_name (client_name : string) : string :=
  replace_char "/" "_" (replace_char " " "_" client_name).

(** The file name of [_save_report]; [timestamp] is
    [datetime.now().strftime("%Y%m%d_%H%M%S")]. *)
Definition filename (client_name timestamp : string) : string :=
  "audit_" ++ safe_client_name client_name ++ "_" ++ timestamp ++ ".md".

(** The text [_save_report] writes; [generated] is
    [datetime.now().strftime('%B %d, %Y at %I:%M %p')]. *)
Definition report_content (crew_result client_name generated : string)
    : string :=
  if String.prefix "#" crew_result then crew_result
  else
    ("# Tech Stack Audit Report: " ++ client_name ++ Parser.nl ++ Parser.nl)
    ++ ("**Generated:** " ++ generated ++ Parser.nl ++ Parser.nl)
    ++ ("---" ++ Parser.nl ++ Parser.nl)
    ++ crew_result.

(** Lines 206-233: the output directory after the write and the path
    returned. The write is not guarded: when [open] raises for the file
    name ([open_error] gives the text of the exception), the exception
    leaves the function ([inl]). *)
Definition _save_report (open_error : string -> option string)
    (output_dir : gmap string string)
    (crew_result client_name timestamp generated : string)
    : string + (gmap string string * string) :=
  let name := filename client_name timestamp in
  match open_error name with
  | Some msg => inl msg
  | None =>
      inr (<[name := report_content crew_result client_name generated]> output_dir,
           name)
  end.

End Report.

(** * The section delimiter as the specification words it *)

Module Spec.

(** A line consisting of three or more hyphens. *)
Definition is_delimiter_line (line : string) : bool :=
  (3 <=? String.length line)%nat && all_chars (Ascii.eqb "-"%char) line.

(** Lines grouped into sections: a delimiter line closes the section before
    it and opens the next one. *)
Fixpoint group_lines (current : list string) (lines : list string)
    : list (list string) :=
  match lines with
  | [] => [current]
  | line :: rest =>
      if is_delimiter_line line then current :: group_lines [] rest
      else group_lines (current ++ [line]) rest
  end.

Definition delimiter_sections (output_text : string) : list string :=
  map (join Parser.nl) (group_lines [] (split Parser.nl output_text)).

(** A calendar date in the form YYYY-MM-DD, the form of both ends of a
    date range. *)
Definition is_digit (c : ascii) : bool :=
  ((48 <=? code c) && (code c <=? 57))%N.

Definition is_iso_date (s : string) : bool :=
  match s with
  | String y1 (String y2 (String y3 (String y4 (String h1
      (String m1 (String m2 (String h2 (String d1 (String d2
        EmptyString))))))))) =>
      is_digit y1 && is_digit y2 && is_digit y3 && is_digit y4
      && Ascii.eqb h1 "-" && is_digit m1 && is_digit m2
      && Ascii.eqb h2 "-" && is_digit d1 && is_digit d2
  | _ => false
  end.

Definition is_date_range (r : string * string) : bool :=
  is_iso_date (fst r) && is_iso_date (snd r).

(** Two characters that are the same letter in either case. *)
Definition same_letter (c1 c2 : ascii) : Prop :=
  c1 = c2 \/
  (isupper c1 = true /\ c2 = lower_char c1) \/
  (isupper c2 = true /\ c1 = lower_char c2).

(** Two names that differ in letter case only. *)
Inductive differ_in_case : string -> string -> Prop :=
  | differ_nil : differ_in_case EmptyString EmptyString
  | differ_cons c1 c2 s1 s2 :
      same_letter c1 c2 -> differ_in_case s1 s2 ->
      differ_in_case (String c1 s1) (String c2 s2).




End Spec.

(** * Sample collaborators and inputs *)

Module Sample.

(** A researcher with the default freshness window of 30 days, a writable
    cache directory, an empty registry and a research capability that
    times out. Every call of the capability takes ninety seconds. *)
Definition env : Env :=
  mkEnv default_cache_duration_days
        (fun _ => true) (fun _ => false) (fun _ => None)
        (fun _ => KickoffRaises "timed out")
        (fun _ => inl "Expecting value")
        (fun _ => None)
        (fun _ => 90000000%N)
        (fun _ => "2024-06-01T00:00:00").

Definition empty_world : World := mkWorld ∅ 0 [] 0.

(** A researcher whose registry knows one tool, behind authentication, and
    whose research capability answers with an empty JSON object. *)
Definition gated_env : Env :=
  mkEnv default_cache_duration_days
        (fun _ => true)
        (fun tool_name => String.eqb tool_name "Salesforce")
        (fun tool_name =>
           if String.eqb tool_name "Salesforce"
           then Some (mkEndpoint (Some "https://api.example.com/changelog") true)
           else None)
        (fun _ => Returns "Findings: {}")
        (fun text => if String.eqb text "{}" then inr [] else inl "Expecting value")
        (fun _ => None)
        (fun _ => 90000000%N)
        (fun _ => "2024-06-01T00:00:00").


(** A researcher whose registry knows one tool with an open endpoint. *)
Definition open_api_env : Env :=
  mkEnv default_cache_duration_days
        (fun _ => true)
        (fun tool_name => String.eqb tool_name "Stripe")
        (fun tool_name =>
           if String.eqb tool_name "Stripe"
           then Some (mkEndpoint (Some "https://api.example.com/changes") false)
           else None)
        (fun _ => KickoffRaises "timed out")
        (fun _ => inl "Expecting value")
        (fun _ => None)
        (fun _ => 90000000%N)
        (fun _ => "2024-06-01T00:00:00").

(** A researcher whose research capability reports a failure of its own
    in JSON, and one whose JSON has a number for the updates. *)
Definition quoted (s : string) : string :=
  String (ascii_of_nat 34) s ++ String (ascii_of_nat 34) EmptyString.

Definition self_reported_json : string :=
  "{" ++ quoted "success" ++ ": false, " ++ quoted "updates" ++ ": [{"
  ++ quoted "feature_name" ++ ": " ++ quoted "X" ++ "}]}".

Definition null_updates_json : string :=
  "{" ++ quoted "updates" ++ ": null}".

Definition self_reported_env : Env :=
  mkEnv default_cache_duration_days
        (fun _ => true) (fun _ => false) (fun _ => None)
        (fun _ => Returns ("Here is the result: " ++ self_reported_json))
        (fun _ => inr [ ("success", VBool false);
                        ("updates", VList [VDict [("feature_name", VStr "X")]]) ])
        (fun _ => None)
        (fun _ => 90000000%N)
        (fun _ => "2024-06-01T00:00:00").

Definition unsized_updates_env : Env :=
  mkEnv default_cache_duration_days
        (fun _ => true) (fun _ => false) (fun _ => None)
        (fun _ => Returns null_updates_json)
        (fun _ => inr [("updates", VNone)])
        (fun _ => None)
        (fun _ => 90000000%N)
        (fun _ => "2024-06-01T00:00:00").

(** A researcher whose research capability answers with braces that hold
    no JSON. *)
Definition bad_json_env : Env :=
  mkEnv default_cache_duration_days
        (fun _ => true) (fun _ => false) (fun _ => None)
        (fun _ => Returns "Result: {oops}")
        (fun _ => inl "Expecting property name enclosed in double quotes")
        (fun _ => None)
        (fun _ => 90000000%N)
        (fun _ => "2024-06-01T00:00:00").

(** A researcher whose crew cannot be built for tools of type crm and finds
    nothing for the others. *)
Definition crm_fault_env : Env :=
  mkEnv default_cache_duration_days
        (fun _ => true) (fun _ => false) (fun _ => None)
        (fun request =>
           if String.eqb (req_tool_type request) "crm"
           then CrewRaises "crew could not be built"
           else Returns "No public updates found")
        (fun _ => inl "Expecting value")
        (fun _ => None)
        (fun _ => 90000000%N)
        (fun _ => "2024-06-01T00:00:00").

(** A report that names a feature and then says that nothing was found. *)
Definition mixed_report : string :=
  "Feature Name: Webhook Support" ++ Parser.nl ++ "---" ++ Parser.nl
  ++ "No Public Updates Found for Acme CRM".

(** Two feature lines on one line with hyphens between them. *)
Definition inline_hyphens : string :=
  "Feature Name: A---Feature Name: B".

(** A result as the web path of the root variant builds it. *)
Definition found_nothing (tool_name : string) : dict :=
  [ ("success", VBool true);
    ("source", VStr "web_search");
    ("tool_name", VStr tool_name);
    ("updates", VList []) ].

Definition range_2023 : string * string := ("2023-01-01", "2024-01-01").

(** A cache directory, one day after its only file was written: the file
    is the one of the tool Acme for the range of 2023 in the root variant,
    and its results are a list. *)
Definition list_results_world : World :=
  mkWorld
    {[ "acme_2023-01-01_2024-01-01" :=
         Doc (mkDoc (StampAt 0) (Some "Acme")
                    (Some (VList [VStr "2023-01-01"; VStr "2024-01-01"]))
                    None (Some (VList [VStr "stale"]))) ]}
    usec_per_day [] 0.

Definition range_2024 : string * string := ("2024-01-01", "2025-01-01").

Definition tool (name type : string) : Root.Tool :=
  [("name", name); ("type", type)].

(** A report without any key: value line. *)
Definition prose_report : string :=
  "The vendor publishes release notes behind a customer login".

Definition two_sections : string :=
  "Feature Name: Webhook Support" ++ Parser.nl ++ "Release Date: 2024-03"
  ++ Parser.nl ++ "---" ++ Parser.nl ++ "Feature Name: OAuth" ++ Parser.nl.

End Sample.

(** * Notions the statements use *)

(** The freshness window of a researcher, in microseconds. *)
Definition window (env : Env) : Z := timedelta_days (cache_duration_days env).

(** Every range recorded in a document is the range of its key. *)
Definition ranges_recorded (f : gmap string CacheFile) : Prop :=
  forall k d r,
    f !! k = Some (Doc d) -> doc_date_range d = Some r ->
    exists tool_name range,
      Spec.is_date_range range = true /\
      k = Root.cache_key tool_name range /\
      r = VList [VStr (fst range); VStr (snd range)].


(** The entry one round records: the result of the per-tool protocol, or
    the failure entry for the exception it raised. *)
Definition entry_of (outcome : string + value) : value :=
  match outcome with
  | inl msg => VDict (Root.stack_failure msg)
  | inr research_result => research_result
  end.

(** The same researcher over a cache directory with other write
    permissions. *)
Definition with_writable (f : string -> bool) (env : Env) : Env :=
  mkEnv (cache_duration_days env) f (has_api_endpoint env) (get_endpoint env)
        (crew env) (json_loads env) (analysis env) (took env) (isoformat env).

(** The time a sequence of calls of the capability took. *)
Definition time_of (env : Env) (cs : list Call) : Z :=
  fold_right (fun c t => (Z.of_N (took env c) + t)%Z) 0%Z cs.

(** The world [w'] is the world [w] after the calls [cs] of the capability
    and nothing else: they are recorded, the clock has moved on by the time
    they took, and the cache directory is as it was. *)
Definition after_calls (env : Env) (cs : list Call) (w w' : World) : Prop :=
  files w' = files w /\ calls w' = (calls w ++ cs)%list /\
  now w' = (now w + time_of env cs)%Z /\ slept w' = slept w.

(** A call that ends in the exception of [Task(...)] or [Crew(...)]. *)
Definition setup_fault (env : Env) (c : Call) : bool :=
  match c with
  | Research request =>
      match crew env request with
      | TaskRaises _ | CrewRaises _ => true
      | _ => false
      end
  | Analysis _ => false
  end.

(** A JSON object, a dictionary of Python. *)
Definition is_object (v : value) : Prop := exists d, v = VDict d.

(** Every result held in the cache directory is an object, as in every
    file the researchers themselves write. *)
Definition results_are_objects (f : gmap string CacheFile) : Prop :=
  forall k d v, f !! k = Some (Doc d) -> doc_results d = Some v -> is_object v.

(** An entry of the stack results that counts as successful: an object
    whose success is truthy. *)
Definition success_of (v : value) : bool :=
  match v with
  | VDict d => truthy (dict_get "success" d)
  | _ => false
  end.

(** A research capability whose task and crew can always be built. *)
Definition no_setup_fault (env : Env) : Prop :=
  forall request msg,
    crew env request <> TaskRaises msg /\ crew env request <> CrewRaises msg.



(** Pieces cut at the leftmost occurrences of "---", one after the other:
    no piece but the last makes up a "---" together with the first two
    hyphens of the delimiter that follows it, and the last piece holds
    none. *)
Fixpoint cut_leftmost (pieces : list string) : bool :=
  match pieces with
  | [] => false
  | [last] => negb (contains "---" last)
  | piece :: rest => negb (contains "---" (piece ++ "--")) && cut_leftmost rest
  end.

(** The fields the parser fills. *)
Definition update_fields : list string :=
  [ "feature_name"; "release_date"; "source_url"; "description";
    "automation_value" ].

(** A dictionary whose keys are parser fields, each at most once, and whose
    values are strings. *)
Definition is_update_record (u : dict) : Prop :=
  NoDup (map fst u) /\
  Forall (fun entry => In (fst entry) update_fields /\
                       exists s, snd entry = VStr s) u.

(** A text in which the character [c] does not occur. *)
Definition free_of (c : ascii) (s : string) : bool :=
  all_chars (fun x => negb (Ascii.eqb x c)) s.

(** * Facts about the built-ins *)

Module PyFacts.

Local Arguments String.append : simpl nomatch.

Lemma length_app (a b : string) :
  String.length (a ++ b) = String.length a + String.length b.
Proof. induction a as [|c a IH]; simpl; [reflexivity | now rewrite IH]. Qed.

Lemma app_assoc (a b c : string) : (a ++ b) ++ c = a ++ b ++ c.
Proof. induction a as [|x a IH]; simpl; [reflexivity | now rewrite IH]. Qed.

Lemma app_char (c : ascii) (a : string) : String c "" ++ a = String c a.
Proof. reflexivity. Qed.


Lemma map_chars_app f (a b : string) :
  map_chars f (a ++ b) = map_chars f a ++ map_chars f b.
Proof. induction a as [|c a IH]; simpl; [reflexivity | now rewrite IH]. Qed.

Lemma map_chars_length f (a : string) :
  String.length (map_chars f a) = String.length a.
Proof. induction a as [|c a IH]; simpl; [reflexivity | now rewrite IH]. Qed.

Lemma lower_app (a b : string) : lower (a ++ b) = lower a ++ lower b.
Proof. apply map_chars_app. Qed.

(** Two concatenations with tails of equal length agree part by part. *)
Lemma app_inj_tail (a a' b b' : string) :
  a ++ b = a' ++ b' -> String.length b = String.length b' ->
  a = a' /\ b = b'.
Proof.
  revert a'. induction a as [|c a IH]; intros [|c' a'] E L; simpl in E.
  - now split.
  - subst b. simpl in L. rewrite length_app in L. lia.
  - subst b'. simpl in L. rewrite length_app in L. lia.
  - injection E as -> E. destruct (IH _ E L) as [-> ->]. now split.
Qed.


Lemma all_chars_app p (a b : string) :
  all_chars p (a ++ b) = all_chars p a && all_chars p b.
Proof.
  induction a as [|c a IH]; simpl; [reflexivity |].
  now rewrite IH, andb_assoc.
Qed.

Lemma lower_char_idem c : lower_char (lower_char c) = lower_char c.
Proof. destruct c as [[] [] [] [] [] [] [] []]; reflexivity. Qed.








Lemma prefix_app (p s : string) : String.prefix p (p ++ s) = true.
Proof.
  induction p as [|c p IH]; simpl; [now destruct s |].
  destruct (ascii_dec c c); [exact IH | congruence].
Qed.

Lemma prefix_extend (p a b : string) :
  String.prefix p a = true -> String.prefix p (a ++ b) = true.
Proof.
  revert a. induction p as [|c p IH]; intros a H; simpl.
  - now destruct (a ++ b).
  - destruct a as [|x a]; simpl in *; [discriminate |].
    destruct (ascii_dec c x); [now apply IH | discriminate].
Qed.

Lemma prefix_split (p s : string) :
  String.prefix p s = true -> s = p ++ drop (String.length p) s.
Proof.
  revert s. induction p as [|c p IH]; intros s H; simpl.
  - reflexivity.
  - destruct s as [|x s]; simpl in H; [discriminate |].
    destruct (ascii_dec c x) as [->|]; [|discriminate].
    simpl. f_equal. now apply IH.
Qed.

Lemma partition_unfold (sep s : string) :
  partition sep s =
  if String.prefix sep s then Some ("", drop (String.length sep) s)
  else match s with
       | EmptyString => None
       | String c s' =>
           match partition sep s' with
           | Some (a, b) => Some (String c a, b)
           | None => None
           end
       end.
Proof. destruct s; reflexivity. Qed.

Lemma partition_spec (sep s a b : string) :
  partition sep s = Some (a, b) -> s = a ++ sep ++ b.
Proof.
  revert a. induction s as [|c s IH]; intros a H.
  - rewrite partition_unfold in H.
    destruct (String.prefix sep "") eqn:P; [|discriminate].
    injection H as <- <-. now apply prefix_split.
  - rewrite partition_unfold in H.
    destruct (String.prefix sep (String c s)) eqn:P.
    + injection H as <- <-. now apply prefix_split.
    + destruct (partition sep s) as [[a' b']|] eqn:Q; [|discriminate].
      injection H as <- <-. simpl. f_equal. now apply IH.
Qed.

(** The text before the leftmost occurrence holds no occurrence. *)
Lemma partition_left_free (sep s a b : string) :
  sep <> "" -> partition sep s = Some (a, b) -> partition sep a = None.
Proof.
  intros NE. revert a. induction s as [|c s IH]; intros a H;
    rewrite partition_unfold in H.
  - destruct (String.prefix sep "") eqn:P; [|discriminate].
    destruct sep; [congruence | discriminate].
  - destruct (String.prefix sep (String c s)) eqn:P.
    + injection H as <- <-. destruct sep; [congruence | reflexivity].
    + destruct (partition sep s) as [[a' b']|] eqn:Q; [|discriminate].
      injection H as <- <-.
      rewrite partition_unfold, (IH a' eq_refl).
      destruct (String.prefix sep (String c a')) eqn:P'; [|reflexivity].
      apply (prefix_extend _ _ (sep ++ b')) in P'.
      apply partition_spec in Q.
      change (String c a' ++ sep ++ b') with (String c (a' ++ sep ++ b')) in P'.
      rewrite <- Q in P'. congruence.
Qed.

Lemma partition_occurs (sep a b : string) :
  partition sep (a ++ sep ++ b) <> None.
Proof.
  induction a as [|c a IH]; simpl "++"; rewrite partition_unfold.
  - now rewrite prefix_app.
  - destruct (String.prefix sep _); [discriminate |].
    destruct (partition sep (a ++ sep ++ b)) as [[? ?]|]; [discriminate | exact IH].
Qed.

Lemma contains_occurs (sep a b : string) :
  contains sep (a ++ sep ++ b) = true.
Proof.
  unfold contains. pose proof (partition_occurs sep a b) as H.
  destruct (partition sep (a ++ sep ++ b)); [reflexivity | congruence].
Qed.

Lemma contains_false (sep s : string) :
  contains sep s = false <-> partition sep s = None.
Proof.
  unfold contains. destruct (partition sep s); split; congruence.
Qed.

Lemma split_fuel_nonempty fuel sep s : split_fuel fuel sep s <> [].
Proof.
  destruct fuel; simpl; [discriminate |].
  destruct (partition sep s) as [[? ?]|]; discriminate.
Qed.

Lemma join_cons sep x l : l <> [] -> join sep (x :: l) = x ++ sep ++ join sep l.
Proof. destruct l; [congruence | reflexivity]. Qed.

(** [split] cuts at occurrences of the separator only, and at all of them:
    joining the pieces with the separator gives the text back, and no piece
    holds the separator. *)
Lemma split_fuel_spec (sep : string) :
  sep <> "" ->
  forall fuel s, String.length s < fuel ->
    join sep (split_fuel fuel sep s) = s /\
    Forall (fun piece => contains sep piece = false) (split_fuel fuel sep s).
Proof.
  intros NE. induction fuel as [|fuel IH]; intros s L; [lia |].
  simpl. destruct (partition sep s) as [[a b]|] eqn:P.
  - pose proof (partition_spec _ _ _ _ P) as E.
    assert (String.length b < fuel) as Lb.
    { rewrite E, !length_app in L.
      destruct sep; [congruence | simpl in L; lia]. }
    destruct (IH b Lb) as [J F]. split.
    + rewrite join_cons by apply split_fuel_nonempty. now rewrite J.
    + constructor; [|exact F].
      apply contains_false. eapply partition_left_free; eauto.
  - split; [reflexivity |].
    constructor; [now apply contains_false | constructor].
Qed.

Lemma split_spec (sep s : string) :
  sep <> "" ->
  join sep (split sep s) = s /\
  Forall (fun piece => contains sep piece = false) (split sep s).
Proof. intros NE. apply split_fuel_spec; [exact NE | lia]. Qed.

End PyFacts.

Module PyMore.

Local Arguments String.append : simpl nomatch.
Local Open Scope nat_scope.

Lemma prefix_empty (s : string) : String.prefix "" s = true.
Proof. now destruct s. Qed.

Lemma contains_unfold_char c x (s : string) :
  contains (String c "") (String x s)
  = Ascii.eqb x c || contains (String c "") s.
Proof.
  unfold contains. rewrite PyFacts.partition_unfold.
  cbn [String.prefix]. destruct (ascii_dec c x) as [<-|NE].
  - now rewrite prefix_empty, Ascii.eqb_refl.
  - destruct (Ascii.eqb x c) eqn:E.
    + apply Ascii.eqb_eq in E. congruence.
    + simpl. now destruct (partition (String c "") s) as [[? ?]|].
Qed.

(** [c in s] is false exactly for the texts free of [c]. *)
Lemma contains_char_free c (s : string) :
  contains (String c "") s = negb (free_of c s).
Proof.
  induction s as [|x s IH]; [reflexivity |].
  rewrite contains_unfold_char, IH. unfold free_of. simpl.
  now destruct (Ascii.eqb x c), (all_chars _ s).
Qed.

Lemma free_of_app c (a b : string) :
  free_of c (a ++ b) = free_of c a && free_of c b.
Proof. apply PyFacts.all_chars_app. Qed.

Lemma free_of_join c sep (l : list string) :
  free_of c (join sep l) = true -> Forall (fun p => free_of c p = true) l.
Proof.
  induction l as [|x l IH]; [constructor |].
  destruct l as [|y l].
  - simpl. intros H. now repeat constructor.
  - rewrite PyFacts.join_cons by discriminate. rewrite !free_of_app.
    intros H. apply andb_true_iff in H as [Hx H].
    apply andb_true_iff in H as [_ H]. constructor; [exact Hx | now apply IH].
Qed.

Lemma free_of_split c sep (s : string) :
  sep <> "" -> free_of c s = true ->
  Forall (fun p => free_of c p = true) (split sep s).
Proof.
  intros NE F. apply (free_of_join c sep).
  destruct (PyFacts.split_spec sep s NE) as [-> _]. exact F.
Qed.

Lemma free_of_lstrip c (s : string) :
  free_of c s = true -> free_of c (lstrip s) = true.
Proof.
  induction s as [|x s IH]; [reflexivity |]. simpl lstrip.
  destruct (isspace x); [|now intros H].
  unfold free_of. simpl. intros H. apply andb_true_iff in H as [_ H].
  now apply IH.
Qed.

Lemma free_of_rstrip c (s : string) :
  free_of c s = true -> free_of c (rstrip s) = true.
Proof.
  induction s as [|x s IH]; [reflexivity |].
  change (rstrip (String x s))
    with (if all_chars isspace (String x s) then "" else String x (rstrip s)).
  destruct (all_chars isspace (String x s)); [reflexivity |].
  unfold free_of in *. simpl. intros H. apply andb_true_iff in H as [-> H].
  now apply IH.
Qed.

Lemma free_of_strip c (s : string) :
  free_of c s = true -> free_of c (strip s) = true.
Proof. intros H. now apply free_of_rstrip, free_of_lstrip. Qed.

(** The leftmost occurrence of a one-character separator is after any text
    free of it. *)
Lemma partition_char_free c (a b : string) :
  free_of c a = true ->
  partition (String c "") (a ++ String c "" ++ b) = Some (a, b).
Proof.
  induction a as [|x a IH]; intros F.
  - rewrite PyFacts.partition_unfold. simpl.
    destruct (ascii_dec c c); [|congruence]. now rewrite prefix_empty.
  - unfold free_of in F. simpl in F. apply andb_true_iff in F as [Nx F].
    change (String x a ++ String c "" ++ b)
      with (String x (a ++ String c "" ++ b)).
    rewrite PyFacts.partition_unfold. cbn [String.prefix].
    destruct (ascii_dec c x) as [<-|NE].
    + now rewrite Ascii.eqb_refl in Nx.
    + now rewrite (IH F).
Qed.

Lemma drop_app (p s : string) : drop (String.length p) (p ++ s) = s.
Proof. induction p as [|c p IH]; simpl; [reflexivity | exact IH]. Qed.

Lemma prefix_drop_app (sep a x : string) :
  String.prefix sep a = true ->
  drop (String.length sep) (a ++ x) = drop (String.length sep) a ++ x.
Proof.
  intros P. apply PyFacts.prefix_split in P.
  rewrite P at 1. rewrite PyFacts.app_assoc, drop_app. reflexivity.
Qed.

Lemma prefix_within (sep a x : string) :
  String.length sep <= String.length a ->
  String.prefix sep (a ++ x) = String.prefix sep a.
Proof.
  revert a. induction sep as [|c sep IH]; intros a L.
  - now rewrite !prefix_empty.
  - destruct a as [|y a]; simpl in L; [lia |].
    change (String y a ++ x) with (String y (a ++ x)). cbn [String.prefix].
    destruct (ascii_dec c y); [apply IH; lia | reflexivity].
Qed.

(** The leftmost occurrence stays the leftmost when text is appended. *)
Lemma partition_app_left sep (a a1 a2 x : string) :
  partition sep a = Some (a1, a2) ->
  partition sep (a ++ x) = Some (a1, a2 ++ x).
Proof.
  revert a1. induction a as [|c a IH]; intros a1 H;
    rewrite PyFacts.partition_unfold in H.
  - destruct (String.prefix sep "") eqn:P; [|discriminate].
    injection H as <- <-. rewrite PyFacts.partition_unfold.
    rewrite (PyFacts.prefix_extend _ _ x P). now rewrite prefix_drop_app.
  - destruct (String.prefix sep (String c a)) eqn:P.
    + injection H as <- <-. rewrite PyFacts.partition_unfold.
      rewrite (PyFacts.prefix_extend _ _ x P). now rewrite prefix_drop_app.
    + destruct (partition sep a) as [[a1' a2']|] eqn:Q; [|discriminate].
      injection H as <- <-.
      change (String c a ++ x) with (String c (a ++ x)).
      rewrite PyFacts.partition_unfold, (IH _ eq_refl).
      change (String c (a ++ x)) with (String c a ++ x).
      rewrite prefix_within, P; [reflexivity |].
      apply PyFacts.partition_spec in Q. subst a.
      simpl. rewrite !PyFacts.length_app. lia.
Qed.

Lemma split_fuel_enough sep (s : string) :
  sep <> "" ->
  forall n m, String.length s < n -> String.length s < m ->
    split_fuel n sep s = split_fuel m sep s.
Proof.
  intros NE n. revert s. induction n as [|n IH]; intros s m Ln Lm; [lia |].
  destruct m as [|m]; [lia |]. simpl.
  destruct (partition sep s) as [[a b]|] eqn:P; [|reflexivity].
  f_equal. apply PyFacts.partition_spec in P. subst s.
  rewrite !PyFacts.length_app in *.
  destruct sep; [congruence |]. simpl in *. apply IH; lia.
Qed.

(** [split] cuts at the leftmost occurrence and goes on with the rest. *)
Lemma split_unfold sep (s : string) :
  sep <> "" ->
  split sep s = match partition sep s with
                | None => [s]
                | Some (a, b) => a :: split sep b
                end.
Proof.
  intros NE. unfold split at 1. simpl.
  destruct (partition sep s) as [[a b]|] eqn:P; [|reflexivity].
  f_equal. apply split_fuel_enough; [exact NE | | lia].
  apply PyFacts.partition_spec in P. subst s. rewrite !PyFacts.length_app.
  destruct sep; [congruence |]. simpl. lia.
Qed.

(** With a one-character separator, the pieces of a text that ends in a
    last piece free of the separator are the pieces of the text before it
    and that last piece. *)
Lemma split_char_snoc c (a b : string) :
  free_of c b = true ->
  split (String c "") (a ++ String c "" ++ b)
  = (split (String c "") a ++ [b])%list.
Proof.
  intros Fb.
  assert (forall n a, String.length a < n ->
            split (String c "") (a ++ String c "" ++ b)
            = (split (String c "") a ++ [b])%list) as H.
  { clear a. induction n as [|n IH]; intros a L; [lia |].
    rewrite (split_unfold _ a) by discriminate.
    rewrite split_unfold by discriminate.
    destruct (partition (String c "") a) as [[a1 a2]|] eqn:P.
    - rewrite (partition_app_left _ _ _ _ _ P). simpl. f_equal.
      apply IH. apply PyFacts.partition_spec in P. subst a.
      rewrite !PyFacts.length_app in L. simpl in L. lia.
    - rewrite partition_char_free.
      + simpl. f_equal. rewrite split_unfold by discriminate.
        assert (contains (String c "") b = false) as Cb
          by now rewrite contains_char_free, Fb.
        apply PyFacts.contains_false in Cb. now rewrite Cb.
      + apply PyFacts.contains_false in P.
        rewrite contains_char_free in P. now destruct (free_of c a). }
  apply (H (S (String.length a))). lia.
Qed.

Lemma strip_blank_iff (s : string) :
  strip s = "" <-> all_chars isspace s = true.
Proof.
  unfold strip. induction s as [|x s IH]; [now split |].
  simpl lstrip. simpl all_chars. destruct (isspace x) eqn:E.
  - simpl. exact IH.
  - change (rstrip (String x s))
      with (if all_chars isspace (String x s) then "" else String x (rstrip s)).
    simpl all_chars. rewrite E. simpl. split; discriminate.
Qed.

End PyMore.

(** Cuts at the leftmost occurrence of a separator *)

Module CutFacts.

Local Arguments String.append : simpl nomatch.
Local Open Scope nat_scope.

Lemma prefix_length (sep x : string) :
  String.prefix sep x = true -> String.length sep <= String.length x.
Proof.
  intros P. apply PyFacts.prefix_split in P. rewrite P, PyFacts.length_app. lia.
Qed.

Lemma contains_short (sep x : string) :
  String.length x < String.length sep -> contains sep x = false.
Proof.
  intros L. apply PyFacts.contains_false.
  induction x as [|c x IH]; rewrite PyFacts.partition_unfold.
  - destruct (String.prefix sep "") eqn:P; [|reflexivity].
    apply prefix_length in P. lia.
  - destruct (String.prefix sep (String c x)) eqn:P.
    + apply prefix_length in P. lia.
    + rewrite IH; [reflexivity | simpl in L; lia].
Qed.

(** The leftmost occurrence of [init ++ c] in a text is the one after the
    text [a] exactly when [a ++ init] holds no occurrence. *)
Lemma partition_leftmost (init : string) (c : ascii) (s a b : string) :
  let sep := init ++ String c "" in
  partition sep s = Some (a, b) <->
  s = a ++ sep ++ b /\ contains sep (a ++ init) = false.
Proof.
  intros sep.
  assert (String.length sep = S (String.length init)) as Ls.
  { unfold sep. rewrite PyFacts.length_app. simpl. lia. }
  split.
  - intros H. split; [now apply PyFacts.partition_spec |].
    revert a H. induction s as [|x s IH]; intros a H;
      rewrite PyFacts.partition_unfold in H.
    + destruct (String.prefix sep "") eqn:P; [|discriminate].
      apply prefix_length in P. simpl in P. lia.
    + destruct (String.prefix sep (String x s)) eqn:P.
      * injection H as <- <-. apply contains_short. simpl. lia.
      * destruct (partition sep s) as [[a' b']|] eqn:Q; [|discriminate].
        injection H as <- <-.
        pose proof (IH a' eq_refl) as F. apply PyFacts.contains_false in F.
        apply PyFacts.contains_false.
        change (String x a' ++ init) with (String x (a' ++ init)).
        rewrite PyFacts.partition_unfold, F.
        destruct (String.prefix sep (String x (a' ++ init))) eqn:P';
          [|reflexivity].
        apply PyFacts.partition_spec in Q. subst s.
        assert (String x (a' ++ sep ++ b')
                = String x (a' ++ init) ++ String c "" ++ b') as E.
        { unfold sep. simpl. f_equal.
          rewrite !PyFacts.app_assoc. reflexivity. }
        rewrite E, PyMore.prefix_within in P; [congruence |].
        simpl. rewrite PyFacts.length_app. lia.
  - intros [-> F]. apply PyFacts.contains_false in F. revert F.
    induction a as [|x a IH]; intros F.
    + simpl. rewrite PyFacts.partition_unfold, PyFacts.prefix_app.
      now rewrite PyMore.drop_app.
    + change (String x a ++ init) with (String x (a ++ init)) in F.
      rewrite PyFacts.partition_unfold in F.
      destruct (String.prefix sep (String x (a ++ init))) eqn:P;
        [discriminate |].
      destruct (partition sep (a ++ init)) as [[? ?]|] eqn:Q; [discriminate |].
      change (String x a ++ sep ++ b) with (String x (a ++ sep ++ b)).
      rewrite PyFacts.partition_unfold.
      assert (String x (a ++ sep ++ b)
              = String x (a ++ init) ++ String c "" ++ b) as E.
      { unfold sep. simpl. f_equal. rewrite !PyFacts.app_assoc.
        reflexivity. }
      rewrite E at 1. rewrite PyMore.prefix_within, P;
        [| simpl; rewrite PyFacts.length_app; lia].
      now rewrite (IH eq_refl).
Qed.

Lemma partition_hyphens (s a b : string) :
  partition "---" s = Some (a, b) <->
  s = a ++ "---" ++ b /\ contains "---" (a ++ "--") = false.
Proof. exact (partition_leftmost "--" "-" s a b). Qed.

Lemma split_cut_leftmost (s : string) : cut_leftmost (split "---" s) = true.
Proof.
  assert (forall n s, String.length s < n ->
            cut_leftmost (split "---" s) = true) as H.
  { clear s. induction n as [|n IH]; intros s L; [lia |].
    rewrite PyMore.split_unfold by discriminate.
    destruct (partition "---" s) as [[a b]|] eqn:P.
    - pose proof P as Q. apply partition_hyphens in Q as [E F].
      assert (String.length b < n) as Lb.
      { rewrite E, !PyFacts.length_app in L. simpl in L. lia. }
      specialize (IH b Lb).
      destruct (split "---" b) as [|y l] eqn:S.
      + discriminate IH.
      + change (cut_leftmost (a :: y :: l))
          with (negb (contains "---" (a ++ "--")) && cut_leftmost (y :: l)).
        now rewrite F, IH.
    - simpl. apply PyFacts.contains_false in P. now rewrite P. }
  apply (H (S (String.length s))). lia.
Qed.

(** Pieces cut at the leftmost occurrences are the pieces [split] gives. *)
Lemma cut_leftmost_unique (pieces : list string) :
  cut_leftmost pieces = true -> split "---" (join "---" pieces) = pieces.
Proof.
  induction pieces as [|piece rest IH]; [discriminate |].
  destruct rest as [|next rest].
  - simpl. intros H. apply negb_true_iff, PyFacts.contains_false in H.
    rewrite PyMore.split_unfold by discriminate. now rewrite H.
  - change (cut_leftmost (piece :: next :: rest))
      with (negb (contains "---" (piece ++ "--"))
            && cut_leftmost (next :: rest)).
    intros H. apply andb_true_iff in H as [F H].
    apply negb_true_iff in F.
    rewrite PyFacts.join_cons by discriminate.
    rewrite PyMore.split_unfold by discriminate.
    assert (partition "---" (piece ++ "---" ++ join "---" (next :: rest))
            = Some (piece, join "---" (next :: rest))) as ->.
    { apply partition_hyphens. now split. }
    now rewrite (IH H).
Qed.

End CutFacts.

(** * The parser *)

Lemma says_no_updates_occurrence (before occurrence after pattern : string) :
  In pattern Parser.no_updates_patterns ->
  lower occurrence = pattern ->
  Parser.says_no_updates (before ++ occurrence ++ after) = true.
Proof.
  intros Hin Hlow. unfold Parser.says_no_updates.
  apply existsb_exists. exists pattern. split; [exact Hin |].
  rewrite !PyFacts.lower_app, Hlow. apply PyFacts.contains_occurs.
Qed.

(** Claim C2, negative-marker precedence: a text in which some phrase of
    the fixed marker set occurs, in whatever letter case, parses to the
    empty sequence of updates, whatever else the text holds; the root
    variant returns before it consults anything else. *)
Theorem negative_marker_precedence (env : Env)
    (text before occurrence after pattern : string) :
  In pattern Parser.no_updates_patterns ->
  lower occurrence = pattern ->
  text = before ++ occurrence ++ after ->
  Final._parse_agent_output text = [] /\
  forall w, Root._parse_agent_output env text w = (inr [], w).
Proof.
  intros Hin Hlow ->.
  pose proof (says_no_updates_occurrence before occurrence after pattern Hin Hlow) as S.
  unfold Final._parse_agent_output, Root._parse_agent_output.
  rewrite S. split; [reflexivity | intros w; reflexivity].
Qed.

Lemma negative_marker_precedence_witness :
  Final._parse_agent_output Sample.mixed_report = [] /\
  forall w, Root._parse_agent_output Sample.env Sample.mixed_report w = (inr [], w).
Proof.
  apply (negative_marker_precedence Sample.env Sample.mixed_report
           ("Feature Name: Webhook Support" ++ Parser.nl ++ "---" ++ Parser.nl)
           "No Public Updates Found" " for Acme CRM"
           "no public updates found").
  - simpl. tauto.
  - reflexivity.
  - reflexivity.
Defined.

(** Without the marker the same feature line is kept. *)
Example feature_without_marker :
  Final._parse_agent_output "Feature Name: Webhook Support"
  = [[("feature_name", VStr "Webhook Support")]].
Proof. reflexivity. Qed.

Example two_sections_parse :
  Final._parse_agent_output Sample.two_sections
  = [ [("feature_name", VStr "Webhook Support"); ("release_date", VStr "2024-03")];
      [("feature_name", VStr "OAuth")] ].
Proof. reflexivity. Qed.

Example last_write_wins :
  Final._parse_agent_output ("Feature Name: A" ++ Parser.nl ++ "Feature Name: B" ++ Parser.nl)
  = [[("feature_name", VStr "B")]].
Proof. reflexivity. Qed.

(** Claim C7 as stated fails: the text is one line that is not a line of
    hyphens, and still the parser cuts it into two sections. *)
Lemma sections_cut_inside_a_line :
  Parser.says_no_updates Sample.inline_hyphens = false /\
  Spec.delimiter_sections Sample.inline_hyphens = [Sample.inline_hyphens] /\
  Parser.sections Sample.inline_hyphens = ["Feature Name: A"; "Feature Name: B"] /\
  Parser.sections Sample.inline_hyphens
    <> Spec.delimiter_sections Sample.inline_hyphens.
Proof. repeat split; try reflexivity. discriminate. Qed.

(** Claim C7, amended: the candidate sections are the pieces between the
    occurrences of the three-character text "---", found from left to
    right without overlap wherever they stand, inside a line or not. Joined
    with "---" they give the text back, each cut is at the leftmost "---"
    after the cut before it, and they are the only pieces cut that way; so
    none of them holds "---". For a text without a negative marker the
    updates are the records of these sections, in order. *)
Theorem sections_cut_at_triple_hyphens (env : Env) (text : string) :
  join "---" (Parser.sections text) = text /\
  cut_leftmost (Parser.sections text) = true /\
  (forall pieces,
     join "---" pieces = text -> cut_leftmost pieces = true ->
     Parser.sections text = pieces) /\
  Forall (fun section => contains "---" section = false) (Parser.sections text) /\
  (Parser.says_no_updates text = false ->
   Final._parse_agent_output text = Parser.records_of (Parser.sections text) /\
   forall w, Parser.records_of (Parser.sections text) <> [] ->
     Root._parse_agent_output env text w
     = (inr (map VDict (Parser.records_of (Parser.sections text))), w)).
Proof.
  destruct (PyFacts.split_spec "---" text) as [J F]; [discriminate |].
  split; [exact J |].
  split; [apply CutFacts.split_cut_leftmost |].
  split.
  { intros pieces <- C. apply CutFacts.cut_leftmost_unique. exact C. }
  split; [exact F |].
  intros S. unfold Final._parse_agent_output, Root._parse_agent_output.
  rewrite S. split; [reflexivity |].
  intros w NE. unfold Parser.structured_updates.
  destruct (Parser.records_of (Parser.sections text)); [congruence | reflexivity].
Qed.

Lemma sections_cut_at_triple_hyphens_witness :
  Parser.sections "a----b" = ["a"; "-b"] /\
  cut_leftmost ["a-"; "b"] = false /\
  Final._parse_agent_output Sample.inline_hyphens
  = Parser.records_of (Parser.sections Sample.inline_hyphens) /\
  Root._parse_agent_output Sample.env Sample.inline_hyphens Sample.empty_world
  = (inr [ VDict [("feature_name", VStr "A")];
           VDict [("feature_name", VStr "B")] ], Sample.empty_world).
Proof.
  split.
  { destruct (sections_cut_at_triple_hyphens Sample.env "a----b")
      as (_ & _ & U & _).
    apply U; reflexivity. }
  split; [reflexivity |].
  destruct (sections_cut_at_triple_hyphens Sample.env Sample.inline_hyphens)
    as (_ & _ & _ & _ & H).
  destruct (H eq_refl) as [HF HR]. split; [exact HF |].
  apply (HR Sample.empty_world). discriminate.
Defined.

(** * The cache store *)

Local Open Scope Z_scope.

Lemma is_fresh_true env (now t : Z) : now - t < window env -> is_fresh env now t = true.
Proof. intros H. unfold is_fresh. apply Z.ltb_lt. exact H. Qed.

Lemma is_fresh_false env (now t : Z) : window env <= now - t -> is_fresh env now t = false.
Proof. intros H. unfold is_fresh. apply Z.ltb_ge. exact H. Qed.

Lemma eq_date_range_refl s e : eq_date_range (VList [VStr s; VStr e]) s e = true.
Proof. simpl. now rewrite !String.eqb_refl. Qed.

Lemma eq_date_range_true v s e :
  eq_date_range v s e = true -> v = VList [VStr s; VStr e].
Proof.
  destruct v as [| | | |l|]; try discriminate.
  destruct l as [|[| | |a| |] [|[| | |b| |] [|? ?]]]; try discriminate.
  simpl. intros H. apply andb_true_iff in H as [Ha Hb].
  apply String.eqb_eq in Ha, Hb. now subst.
Qed.

(** Claim C1, cache freshness: an entry stored under the key a request
    computes is returned while its age, the clock minus its cached_at
    stamp, is below the freshness window and (in the core variant, which
    records the range in the entry) its date range is the requested one;
    once the age reaches the window the read is absent, whatever the entry
    holds. Stated for [_load_cache] of the core variant and [_check_cache]
    of the final variant. *)
Theorem cache_freshness (env : Env) (w : World) (cached : CacheDoc) (t : Z) :
  doc_cached_at cached = StampAt t ->
  (forall tool_name start_date end_date,
     files w !! Core._normalize_tool_name tool_name = Some (Doc cached) ->
     (now w - t < window env ->
      doc_date_range cached = Some (VList [VStr start_date; VStr end_date]) ->
      Core._load_cache env w tool_name (start_date, end_date)
      = doc_results cached) /\
     (window env <= now w - t ->
      Core._load_cache env w tool_name (start_date, end_date) = None)) /\
  (forall cache_key,
     files w !! cache_key = Some (Doc cached) ->
     (now w - t < window env ->
      Final._check_cache env w cache_key = Some cached) /\
     (window env <= now w - t ->
      Final._check_cache env w cache_key = None)).
Proof.
  intros St. split.
  - intros tool_name start_date end_date F. unfold Core._load_cache.
    rewrite F, St. simpl. split.
    + intros Age R. rewrite (is_fresh_true _ _ _ Age), R. cbn [fst snd].
      now rewrite eq_date_range_refl.
    + intros Age. now rewrite (is_fresh_false _ _ _ Age).
  - intros cache_key F. unfold Final._check_cache. rewrite F, St. split.
    + intros Age. now rewrite (is_fresh_true _ _ _ Age).
    + intros Age. now rewrite (is_fresh_false _ _ _ Age).
Qed.

(** An entry written at time 0 is returned 29 days later and absent from
    the 30th day on. *)
Lemma cache_freshness_witness :
  let w := Core._save_cache Sample.env Sample.empty_world "Acme CRM"
             Sample.range_2023 (Sample.found_nothing "Acme CRM") in
  let key := "acme_crm_2023-01-01_2024-01-01"%string in
  let w' := Final._save_to_cache Sample.env Sample.empty_world key
              (Sample.found_nothing "Acme CRM") in
  (Core._load_cache Sample.env (at_time (29 * usec_per_day) w) "acme crm"
                    Sample.range_2023
   = Some (VDict (Sample.found_nothing "Acme CRM")) /\
   Core._load_cache Sample.env (at_time (30 * usec_per_day) w) "acme crm"
                    Sample.range_2023
   = None) /\
  (option_map doc_results
     (Final._check_cache Sample.env (at_time (30 * usec_per_day - 1) w') key)
   = Some (Some (VDict (Sample.found_nothing "Acme CRM"))) /\
   Final._check_cache Sample.env (at_time (30 * usec_per_day) w') key = None).
Proof.
  intros w key w'.
  pose (cached := mkDoc (StampAt 0) (Some "Acme CRM")
                    (Some (VList [VStr "2023-01-01"; VStr "2024-01-01"]))
                    None (Some (VDict (Sample.found_nothing "Acme CRM")))).
  pose (cached' := mkDoc (StampAt 0) None None (Some key)
                     (Some (VDict (Sample.found_nothing "Acme CRM")))).
  split; [|split].
  2:{ destruct (cache_freshness Sample.env (at_time (30 * usec_per_day - 1) w')
                  cached' 0 eq_refl) as [_ H].
      destruct (H key eq_refl) as [Hfresh _].
      rewrite Hfresh; [reflexivity | vm_compute; reflexivity]. }
  2:{ destruct (cache_freshness Sample.env (at_time (30 * usec_per_day) w')
                  cached' 0 eq_refl) as [_ H].
      destruct (H key eq_refl) as [_ Hstale].
      apply Hstale. vm_compute. discriminate. }
  split.
  - destruct (cache_freshness Sample.env (at_time (29 * usec_per_day) w)
                cached 0 eq_refl) as [H _].
    destruct (H "acme crm" "2023-01-01" "2024-01-01" eq_refl) as [Hfresh _].
    apply Hfresh; [vm_compute; reflexivity | reflexivity].
  - destruct (cache_freshness Sample.env (at_time (30 * usec_per_day) w)
                cached 0 eq_refl) as [H _].
    destruct (H "acme crm" "2023-01-01" "2024-01-01" eq_refl) as [_ Hstale].
    apply Hstale. vm_compute. discriminate.
Defined.

Lemma iso_date_length s : Spec.is_iso_date s = true -> String.length s = 10%nat.
Proof.
  do 10 (destruct s as [|? s]; [discriminate |]).
  destruct s; [reflexivity | discriminate].
Qed.

Lemma date_range_lengths r :
  Spec.is_date_range r = true ->
  String.length (fst r) = 10%nat /\ String.length (snd r) = 10%nat.
Proof.
  unfold Spec.is_date_range. intros H. apply andb_true_iff in H as [H1 H2].
  split; now apply iso_date_length.
Qed.

(** The keys of the root variant tell the date ranges apart. *)
Lemma root_cache_key_inj tool1 tool2 r1 r2 :
  Spec.is_date_range r1 = true -> Spec.is_date_range r2 = true ->
  Root.cache_key tool1 r1 = Root.cache_key tool2 r2 -> r1 = r2.
Proof.
  intros I1 I2 E. destruct r1 as [s1 e1], r2 as [s2 e2].
  apply date_range_lengths in I1 as [Ls1 Le1].
  apply date_range_lengths in I2 as [Ls2 Le2].
  unfold Root.cache_key in E. cbn [fst snd] in *.
  rewrite !PyFacts.app_char in E.
  apply PyFacts.app_inj_tail in E as [_ E].
  - injection E as E. apply PyFacts.app_inj_tail in E as [-> E].
    + injection E as ->. reflexivity.
    + simpl. congruence.
  - simpl. rewrite !PyFacts.length_app. simpl. congruence.
Qed.

Lemma files_at_time t w : files (at_time t w) = files w.
Proof. reflexivity. Qed.

Lemma now_at_time t w : now (at_time t w) = t.
Proof. reflexivity. Qed.

Lemma ranges_recorded_empty : ranges_recorded ∅.
Proof. intros k d r H. rewrite lookup_empty in H. discriminate. Qed.

Lemma ranges_recorded_save env w tool_name range results :
  Spec.is_date_range range = true ->
  ranges_recorded (files w) ->
  ranges_recorded (files (Root._save_cache env w tool_name range results)).
Proof.
  intros I Inv. unfold Root._save_cache.
  destruct (writable env _); [|exact Inv].
  intros k d r. cbn [files set_files].
  destruct (decide (Root.cache_key tool_name range = k)) as [<-|NE].
  - rewrite lookup_insert_eq. intros [= <-]. cbn [doc_date_range].
    intros [= <-]. now exists tool_name, range.
  - rewrite lookup_insert_ne by exact NE. apply Inv.
Qed.

Lemma ranges_recorded_at_time t w :
  ranges_recorded (files w) -> ranges_recorded (files (at_time t w)).
Proof. intros H. exact H. Qed.

Lemma eq_date_range_other (other range : string * string) :
  other <> range ->
  eq_date_range (VList [VStr (fst other); VStr (snd other)])
                (fst range) (snd range) = false.
Proof.
  intros NE. destruct (eq_date_range _ _ _) eqn:E; [|reflexivity].
  apply eq_date_range_true in E. injection E as E1 E2.
  destruct other, range. simpl in *. congruence.
Qed.

Lemma core_load_after_save env w t tool_name other range results :
  writable env (Core._normalize_tool_name tool_name) = true ->
  Core._load_cache env (at_time t (Core._save_cache env w tool_name other results))
                   tool_name range
  = if is_fresh env t (now w) then
      if eq_date_range (VList [VStr (fst other); VStr (snd other)])
                       (fst range) (snd range)
      then Some (VDict results) else None
    else None.
Proof.
  intros W. unfold Core._load_cache, Core._save_cache. rewrite W.
  cbn [files at_time set_files now]. rewrite lookup_insert_eq. reflexivity.
Qed.

Lemma root_load_after_save env w t tool_name range results :
  writable env (Root.cache_key tool_name range) = true ->
  Root._load_cache env (at_time t (Root._save_cache env w tool_name range results))
                   tool_name range
  = if is_fresh env t (now w) then Some (VDict results) else None.
Proof.
  intros W. unfold Root._load_cache, Root._save_cache. rewrite W.
  cbn [files at_time set_files now]. rewrite lookup_insert_eq. reflexivity.
Qed.

(** Writing one key of the root variant leaves the reads of the other keys
    as they were. *)
Lemma root_load_frame env w t tool1 range1 tool2 range2 results :
  Root.cache_key tool1 range1 <> Root.cache_key tool2 range2 ->
  Root._load_cache env (at_time t (Root._save_cache env w tool2 range2 results))
                   tool1 range1
  = Root._load_cache env (at_time t w) tool1 range1.
Proof.
  intros NE. unfold Root._load_cache, Root._save_cache.
  destruct (writable env _); [|reflexivity].
  cbn [files at_time set_files now].
  rewrite lookup_insert_ne by congruence. reflexivity.
Qed.

(** Claim C5 as stated fails on the root variant, whose reader never looks
    at the range a document records: a fresh document found under the key
    of the requested range is returned although the range it records is
    another one. *)
Lemma root_read_ignores_recorded_range :
  let stored := VDict (Sample.found_nothing "Acme CRM") in
  let document :=
    mkDoc (StampAt 0) (Some "Acme CRM")
          (Some (VList [VStr "2020-01-01"; VStr "2021-01-01"])) None
          (Some stored) in
  let w := mkWorld {[ "acme_crm_2023-01-01_2024-01-01"%string := Doc document ]}
                   usec_per_day [] 0 in
  Root.cache_key "Acme CRM" Sample.range_2023
  = "acme_crm_2023-01-01_2024-01-01"%string /\
  doc_date_range document
  <> Some (VList [VStr (fst Sample.range_2023); VStr (snd Sample.range_2023)]) /\
  Root._load_cache Sample.env w "Acme CRM" Sample.range_2023 = Some stored.
Proof.
  intros stored document w. split; [reflexivity |]. split; [discriminate |].
  unfold Root._load_cache.
  change (Root.cache_key "Acme CRM" Sample.range_2023)
    with "acme_crm_2023-01-01_2024-01-01"%string.
  unfold w. cbn [files]. rewrite lookup_singleton_eq. reflexivity.
Qed.

(** Claim C5, amended: the core variant compares the recorded range on
    every read: it never hands out a result whose recorded date range is
    not the requested pair, and an entry written for the same tool under
    another range is not returned for this one. The root variant never
    reads the recorded range: it returns the result of whatever fresh
    document it finds under the key built from the tool name and the two
    dates. For ranges of calendar dates that key determines the range, so
    in a cache directory whose documents record the range of their key, as
    the writes of the root variant leave it, a returned result comes from a
    document recording the requested range, and a write for another range
    leaves an absent read absent. *)
Theorem range_match_on_read (env : Env) (w : World) (tool_name : string)
    (range : string * string) :
  (forall r,
     Core._load_cache env w tool_name range = Some r ->
     exists cached,
       files w !! Core._normalize_tool_name tool_name = Some (Doc cached) /\
       doc_date_range cached
       = Some (VList [VStr (fst range); VStr (snd range)]) /\
       doc_results cached = Some r) /\
  (forall other results t,
     other <> range ->
     writable env (Core._normalize_tool_name tool_name) = true ->
     Core._load_cache env (at_time t (Core._save_cache env w tool_name other results))
                      tool_name range = None) /\
  (forall cached t,
     files w !! Root.cache_key tool_name range = Some (Doc cached) ->
     doc_cached_at cached = StampAt t ->
     now w - t < window env ->
     Root._load_cache env w tool_name range = doc_results cached) /\
  (Spec.is_date_range range = true ->
   ranges_recorded (files w) ->
   forall r,
     Root._load_cache env w tool_name range = Some r ->
     exists cached,
       files w !! Root.cache_key tool_name range = Some (Doc cached) /\
       doc_results cached = Some r /\
       forall recorded,
         doc_date_range cached = Some recorded ->
         recorded = VList [VStr (fst range); VStr (snd range)]) /\
  (Spec.is_date_range range = true ->
   forall other results,
     Spec.is_date_range other = true ->
     ranges_recorded (files w) ->
     ranges_recorded (files (Root._save_cache env w tool_name other results))) /\
  (Spec.is_date_range range = true ->
   forall other results t,
     Spec.is_date_range other = true ->
     other <> range ->
     files w !! Root.cache_key tool_name range = None ->
     Root._load_cache env (at_time t (Root._save_cache env w tool_name other results))
                      tool_name range = None).
Proof.
  repeat split.
  - intros r. unfold Core._load_cache.
    destruct (files w !! _) as [[|cached]|] eqn:F; try discriminate.
    destruct (Core.cached_time _); [|discriminate].
    destruct (is_fresh _ _ _); [|discriminate].
    destruct (doc_date_range cached) as [rec|] eqn:R; [|discriminate].
    destruct (eq_date_range rec _ _) eqn:E; [|discriminate].
    intros Res. exists cached. apply eq_date_range_true in E. subst rec. auto.
  - intros other results t NE W.
    rewrite core_load_after_save by exact W.
    rewrite eq_date_range_other by exact NE. now destruct (is_fresh _ _ _).
  - intros cached t F St Age. unfold Root._load_cache. rewrite F, St.
    cbn [Root.cached_time]. now rewrite (is_fresh_true _ _ _ Age).
  - intros I Inv r. unfold Root._load_cache.
    destruct (files w !! _) as [[|cached]|] eqn:F; try discriminate.
    destruct (Root.cached_time _); [|discriminate].
    destruct (is_fresh _ _ _); [|discriminate].
    intros Res. exists cached. repeat split; [exact Res |].
    intros recorded R.
    destruct (Inv _ _ _ F R) as (tool' & range' & I' & K & ->).
    apply root_cache_key_inj in K; [|exact I | exact I']. now subst.
  - intros _ other results I' Inv. now apply ranges_recorded_save.
  - intros I other results t I' NE F.
    rewrite root_load_frame.
    + unfold Root._load_cache. cbn [files at_time]. now rewrite F.
    + intros K. apply root_cache_key_inj in K; [|exact I | exact I']. congruence.
Qed.

Lemma range_match_on_read_witness :
  let stored := Sample.found_nothing "Acme CRM" in
  let core_w := Core._save_cache Sample.env Sample.empty_world "Acme CRM"
                  Sample.range_2023 stored in
  let root_w := Root._save_cache Sample.env Sample.empty_world "Acme CRM"
                  Sample.range_2023 stored in
  (exists cached,
     files core_w !! "acme_crm" = Some (Doc cached) /\
     doc_date_range cached = Some (VList [VStr "2023-01-01"; VStr "2024-01-01"]) /\
     doc_results cached = Some (VDict stored)) /\
  Core._load_cache Sample.env (at_time 1 core_w) "Acme CRM" Sample.range_2024 = None /\
  Root._load_cache Sample.env (at_time 1 root_w) "Acme CRM" Sample.range_2023
  = Some (VDict stored) /\
  (exists cached,
     files root_w !! "acme_crm_2023-01-01_2024-01-01" = Some (Doc cached) /\
     doc_results cached = Some (VDict stored) /\
     forall recorded,
       doc_date_range cached = Some recorded ->
       recorded = VList [VStr "2023-01-01"; VStr "2024-01-01"]) /\
  Root._load_cache Sample.env (at_time 1 root_w) "Acme CRM" Sample.range_2024 = None.
Proof.
  intros stored core_w root_w. repeat apply conj.
  - destruct (range_match_on_read Sample.env core_w "Acme CRM" Sample.range_2023)
      as (H & _). apply (H (VDict stored)). reflexivity.
  - destruct (range_match_on_read Sample.env Sample.empty_world "Acme CRM"
                Sample.range_2024) as (_ & H & _).
    apply (H Sample.range_2023 stored 1); [discriminate | reflexivity].
  - destruct (range_match_on_read Sample.env (at_time 1 root_w) "Acme CRM"
                Sample.range_2023) as (_ & _ & H & _).
    apply (H (mkDoc (StampAt 0) (Some "Acme CRM")
                    (Some (VList [VStr "2023-01-01"; VStr "2024-01-01"])) None
                    (Some (VDict stored))) 0);
      [reflexivity | reflexivity | vm_compute; reflexivity].
  - destruct (range_match_on_read Sample.env root_w "Acme CRM" Sample.range_2023)
      as (_ & _ & _ & H & _).
    apply (H eq_refl); [|reflexivity].
    destruct (range_match_on_read Sample.env Sample.empty_world "Acme CRM"
                Sample.range_2023) as (_ & _ & _ & _ & S & _).
    apply (S eq_refl); [reflexivity | apply ranges_recorded_empty].
  - destruct (range_match_on_read Sample.env Sample.empty_world "Acme CRM"
                Sample.range_2024) as (_ & _ & _ & _ & _ & H).
    apply (H eq_refl Sample.range_2023 stored 1);
      [reflexivity | discriminate | reflexivity].
Defined.

(** Claim C6 as stated fails on the core variant, whose key is the tool
    name alone: after a fresh entry for one range, a write for another
    range of the same tool replaces it, and the read of the first range is
    absent. *)
Lemma core_put_replaces_other_range :
  let v1 := Sample.found_nothing "Acme CRM" in
  let v2 := Core.web_failure "Acme CRM" "timed out" in
  let w1 := Core._save_cache Sample.env Sample.empty_world "Acme CRM"
              Sample.range_2023 v1 in
  let w2 := Core._save_cache Sample.env w1 "Acme CRM" Sample.range_2024 v2 in
  Sample.range_2023 <> Sample.range_2024 /\
  Core._load_cache Sample.env w1 "Acme CRM" Sample.range_2023
  = Some (VDict v1) /\
  Core._load_cache Sample.env w2 "Acme CRM" Sample.range_2023 = None.
Proof. split; [discriminate | split; reflexivity]. Qed.

(** Claim C6, amended: in the root variant, whose key is built from the tool
    name and both ends of the range, a write for [(tool, r2)] leaves the
    entry of every other range [r1] of calendar dates in place, and a read
    of [(tool, r1)] within the freshness window still returns the result
    stored before. In the core variant the key is built from the tool name
    alone: the write for [r2] replaces the one entry of the tool, and the
    read for [r1] is absent from then on. *)
Theorem put_frame (env : Env) (w : World) (tool_name : string)
    (r1 r2 : string * string) (v1 v2 : dict) (t2 t3 : Z) :
  r1 <> r2 ->
  (Spec.is_date_range r1 = true -> Spec.is_date_range r2 = true ->
   writable env (Root.cache_key tool_name r1) = true ->
   t3 - now w < window env ->
   let w1 := Root._save_cache env w tool_name r1 v1 in
   let w2 := Root._save_cache env (at_time t2 w1) tool_name r2 v2 in
   Root._load_cache env (at_time t3 w2) tool_name r1 = Some (VDict v1)) /\
  (writable env (Core._normalize_tool_name tool_name) = true ->
   let w1 := Core._save_cache env w tool_name r1 v1 in
   let w2 := Core._save_cache env (at_time t2 w1) tool_name r2 v2 in
   Core._load_cache env (at_time t3 w2) tool_name r1 = None).
Proof.
  intros NE. split.
  - intros I1 I2 W Age w1 w2. unfold w2.
    rewrite root_load_frame.
    + change (at_time t3 (at_time t2 w1)) with (at_time t3 w1). unfold w1.
      rewrite root_load_after_save by exact W.
      now rewrite (is_fresh_true _ _ _ Age).
    + intros K. apply root_cache_key_inj in K; [congruence | exact I1 | exact I2].
  - intros W w1 w2. unfold w2.
    rewrite core_load_after_save by exact W.
    rewrite eq_date_range_other by congruence. now destruct (is_fresh _ _ _).
Qed.

Lemma put_frame_witness :
  let v1 := Sample.found_nothing "Acme CRM" in
  let v2 := Root.web_failure "Acme CRM" "timed out" in
  (let w1 := Root._save_cache Sample.env Sample.empty_world "Acme CRM"
               Sample.range_2023 v1 in
   let w2 := Root._save_cache Sample.env (at_time usec_per_day w1) "Acme CRM"
               Sample.range_2024 v2 in
   Root._load_cache Sample.env (at_time (2 * usec_per_day) w2) "Acme CRM"
                    Sample.range_2023 = Some (VDict v1)) /\
  (let w1 := Core._save_cache Sample.env Sample.empty_world "Acme CRM"
               Sample.range_2023 v1 in
   let w2 := Core._save_cache Sample.env (at_time usec_per_day w1) "Acme CRM"
               Sample.range_2024 v2 in
   Core._load_cache Sample.env (at_time (2 * usec_per_day) w2) "Acme CRM"
                    Sample.range_2023 = None).
Proof.
  intros v1 v2.
  assert (Sample.range_2023 <> Sample.range_2024) as NE by discriminate.
  destruct (put_frame Sample.env Sample.empty_world "Acme CRM"
              Sample.range_2023 Sample.range_2024 v1 v2
              usec_per_day (2 * usec_per_day) NE) as [HR HC].
  split.
  - apply HR; [reflexivity | reflexivity | reflexivity | vm_compute; reflexivity].
  - apply HC. reflexivity.
Defined.

Lemma same_letter_lower c1 c2 :
  Spec.same_letter c1 c2 -> lower_char c1 = lower_char c2.
Proof.
  intros [-> | [[_ ->] | [_ ->]]];
    [reflexivity | | ]; now rewrite PyFacts.lower_char_idem.
Qed.

Lemma differ_in_case_lower a b : Spec.differ_in_case a b -> lower a = lower b.
Proof.
  induction 1 as [|c1 c2 s1 s2 L _ IH]; [reflexivity |].
  unfold lower in *. simpl. now rewrite (same_letter_lower _ _ L), IH.
Qed.





(** The names of the specification's own example share one key. *)
Example acme_crm_one_key :
  Core._normalize_tool_name "Acme CRM" = Core._normalize_tool_name "acme_crm" /\
  Root.cache_key "Acme CRM" Sample.range_2023
  = Root.cache_key "acme_crm" Sample.range_2023.
Proof. split; reflexivity. Qed.












Lemma acme_differ_in_case : Spec.differ_in_case "Acme CRM" "ACME crm".
Proof.
  repeat (apply Spec.differ_cons;
          [first [ left; reflexivity
                 | right; left; split; reflexivity
                 | right; right; split; reflexivity ] |]).
  apply Spec.differ_nil.
Defined.

(** * The per-tool protocol *)

Lemma core_save_cache_calls env w tool_name range results :
  calls (Core._save_cache env w tool_name range results) = calls w.
Proof. unfold Core._save_cache. now destruct (writable env _). Qed.







(** * Further properties of the parser *)

Lemma dict_lookup_In k v (d : dict) : dict_lookup k d = Some v -> In (k, v) d.
Proof.
  induction d as [|[k' v'] d IH]; simpl; [discriminate |].
  destruct (String.eqb k k') eqn:E.
  - apply String.eqb_eq in E. intros [= ->]. left. now subst.
  - intros H. right. now apply IH.
Qed.

Lemma dict_set_keys k v (d : dict) x :
  In x (map fst (dict_set k v d)) -> x = k \/ In x (map fst d).
Proof.
  induction d as [|[k' v'] d IH]; simpl.
  - intros [<-|[]]. now left.
  - destruct (String.eqb k k') eqn:E; simpl.
    + intros [<-|H]; [now left | right; now right].
    + intros [<-|H]; [right; now left |].
      destruct (IH H) as [->|H']; [now left | right; now right].
Qed.

Lemma dict_set_nodup k v (d : dict) :
  NoDup (map fst d) -> NoDup (map fst (dict_set k v d)).
Proof.
  induction d as [|[k' v'] d IH]; simpl; intros ND.
  - apply NoDup_cons. split; [intros H; inversion H | constructor].
  - apply NoDup_cons in ND as [NI ND].
    destruct (String.eqb k k') eqn:E; simpl.
    + apply String.eqb_eq in E. subst k'. apply NoDup_cons. now split.
    + apply NoDup_cons. split; [|now apply IH].
      intros H. apply list_elem_of_In, dict_set_keys in H as [->|H].
      * now rewrite String.eqb_refl in E.
      * apply NI. now apply list_elem_of_In.
Qed.

Lemma dict_set_forall (P : string * value -> Prop) k v (d : dict) :
  P (k, v) -> Forall P d -> Forall P (dict_set k v d).
Proof.
  intros Pk. induction d as [|[k' v'] d IH]; simpl; intros F.
  - now constructor.
  - apply Forall_cons in F as [Ph F].
    destruct (String.eqb k k'); apply Forall_cons; auto.
Qed.

Lemma dict_set_record k s u :
  In k update_fields -> is_update_record u ->
  is_update_record (dict_set k (VStr s) u).
Proof.
  intros Hk [ND F]. split; [now apply dict_set_nodup |].
  apply dict_set_forall; [|exact F]. split; [exact Hk | now exists s].
Qed.

Lemma parse_line_record u line :
  is_update_record u -> is_update_record (Parser.parse_line u line).
Proof.
  intros R. unfold Parser.parse_line.
  repeat match goal with
         | |- context [if ?b then _ else _] => destruct b
         | |- context [match ?x with Some _ => _ | None => _ end] =>
             destruct x as [[? ?]|]
         end;
    try exact R; apply dict_set_record; try exact R; simpl; tauto.
Qed.

Lemma fold_parse_line_record lines u :
  is_update_record u -> is_update_record (fold_left Parser.parse_line lines u).
Proof.
  revert u. induction lines as [|line lines IH]; intros u R; simpl;
    [exact R | apply IH; now apply parse_line_record].
Qed.

Lemma parse_section_record section u :
  Parser.parse_section section = Some u ->
  is_update_record u /\
  exists name, dict_lookup "feature_name" u = Some (VStr name) /\ name <> "".
Proof.
  unfold Parser.parse_section.
  destruct (String.eqb (strip section) ""); [discriminate |].
  set (update := fold_left _ _ _).
  assert (is_update_record update) as R.
  { apply fold_parse_line_record. split; constructor. }
  destruct (truthy (dict_get "feature_name" update)) eqn:T; [|discriminate].
  intros [= <-]. split; [exact R |].
  unfold dict_get in T.
  destruct (dict_lookup "feature_name" update) as [v|] eqn:L; [|discriminate].
  destruct R as [_ F]. apply dict_lookup_In in L.
  apply list_elem_of_In in L.
  rewrite Forall_forall in F. destruct (F _ L) as [_ [name Hv]].
  simpl in Hv. subst v. exists name. split; [reflexivity |].
  simpl in T. intros ->. discriminate.
Qed.

Lemma records_of_In secs u :
  In u (Parser.records_of secs) ->
  exists section, In section secs /\ Parser.parse_section section = Some u.
Proof.
  unfold Parser.records_of. intros H.
  apply list_elem_of_In, list_elem_of_omap in H as (section & Hs & Hp).
  exists section. split; [now apply list_elem_of_In | exact Hp].
Qed.

(** X1: every record the section parser yields carries a feature name that
    is a non-empty string; its keys are among the five parser fields, none
    twice, and all its values are strings. This holds for the structured
    updates of any text, and so for everything the final variant's parser
    returns. *)
Theorem records_have_feature_names (text : string) (u : dict) :
  In u (Parser.structured_updates text) \/ In u (Final._parse_agent_output text) ->
  is_update_record u /\
  exists name, dict_lookup "feature_name" u = Some (VStr name) /\ name <> "".
Proof.
  intros H.
  assert (In u (Parser.structured_updates text)) as Hin.
  { destruct H as [H|H]; [exact H |].
    unfold Final._parse_agent_output in H.
    destruct (Parser.says_no_updates text); [destruct H | exact H]. }
  apply records_of_In in Hin as (section & _ & Hp).
  now apply parse_section_record in Hp.
Qed.

Lemma records_have_feature_names_witness :
  is_update_record [("feature_name", VStr "OAuth")] /\
  exists name,
    dict_lookup "feature_name" [("feature_name", VStr "OAuth")]
    = Some (VStr name) /\ name <> "".
Proof.
  apply (records_have_feature_names Sample.two_sections).
  right. right. left. reflexivity.
Defined.

Lemma parse_line_no_colon u line :
  free_of ":" line = true -> Parser.parse_line u line = u.
Proof.
  intros F. unfold Parser.parse_line.
  rewrite (PyMore.contains_char_free ":"), (PyMore.free_of_strip _ _ F).
  simpl. now rewrite orb_true_r.
Qed.

Lemma fold_parse_line_no_colon lines u :
  Forall (fun line => free_of ":" line = true) lines ->
  fold_left Parser.parse_line lines u = u.
Proof.
  induction 1 as [|line lines F _ IH]; simpl; [reflexivity |].
  now rewrite parse_line_no_colon.
Qed.

Lemma parse_section_no_colon section :
  free_of ":" section = true -> Parser.parse_section section = None.
Proof.
  intros F. unfold Parser.parse_section.
  destruct (String.eqb (strip section) ""); [reflexivity |].
  rewrite fold_parse_line_no_colon; [reflexivity |].
  apply PyMore.free_of_split; [discriminate | exact F].
Qed.

Lemma records_of_none secs :
  Forall (fun section => Parser.parse_section section = None) secs ->
  Parser.records_of secs = [].
Proof.
  unfold Parser.records_of. induction 1 as [|x l H _ IH]; [reflexivity |].
  simpl. now rewrite H.
Qed.

(** X2: a text without any colon yields no structured update. The final
    variant's parser returns the empty list for it; the root variant's
    parser returns the empty list at once when the text holds a negative
    marker, and otherwise hands the text to the analysis crew, exactly
    once, and returns what that decodes to only if it is a non-empty
    list. *)
Theorem text_without_colon (env : Env) (text : string) :
  contains ":" text = false ->
  Parser.structured_updates text = [] /\
  Final._parse_agent_output text = [] /\
  forall w,
    Root._parse_agent_output env text w
    = if Parser.says_no_updates text then (inr [], w)
      else (inr (match analysis env text with
                 | Some (VList (u :: parsed_updates)) => u :: parsed_updates
                 | _ => []
                 end),
            call env (Analysis text) w).
Proof.
  intros C. rewrite PyMore.contains_char_free in C.
  assert (free_of ":" text = true) as F by now destruct (free_of ":" text).
  assert (Parser.structured_updates text = []) as E.
  { apply records_of_none.
    eapply Forall_impl; [apply (PyMore.free_of_split ":" "---" text);
                         [discriminate | exact F] |].
    intros section. apply parse_section_no_colon. }
  split; [exact E |]. split.
  - unfold Final._parse_agent_output. now destruct (Parser.says_no_updates text).
  - intros w. unfold Root._parse_agent_output.
    destruct (Parser.says_no_updates text); [reflexivity |].
    rewrite E. unfold bind, modify, ret.
    destruct (analysis env text) as [[| | | |[|u l]|]|]; reflexivity.
Qed.

Lemma text_without_colon_witness :
  Final._parse_agent_output Sample.prose_report = [] /\
  Root._parse_agent_output Sample.env Sample.prose_report Sample.empty_world
  = (inr [], call Sample.env (Analysis Sample.prose_report) Sample.empty_world).
Proof.
  destruct (text_without_colon Sample.env Sample.prose_report eq_refl)
    as (_ & HF & HR).
  split; [exact HF |]. exact (HR Sample.empty_world).
Defined.

Lemma dict_get_set_eq k v (d : dict) : dict_get k (dict_set k v d) = v.
Proof.
  unfold dict_get. induction d as [|[k' v'] d IH]; simpl.
  - now rewrite String.eqb_refl.
  - destruct (String.eqb k k') eqn:E; simpl.
    + now rewrite String.eqb_refl.
    + rewrite E. exact IH.
Qed.

Lemma dict_get_set_ne k k' v (d : dict) :
  k <> k' -> dict_get k' (dict_set k v d) = dict_get k' d.
Proof.
  intros NE. unfold dict_get. induction d as [|[k0 v0] d IH]; simpl.
  - destruct (String.eqb k' k) eqn:E; [|reflexivity].
    apply String.eqb_eq in E. congruence.
  - destruct (String.eqb k k0) eqn:E; simpl.
    + apply String.eqb_eq in E. subst k0.
      destruct (String.eqb k' k) eqn:E'; [|reflexivity].
      apply String.eqb_eq in E'. congruence.
    + destruct (String.eqb k' k0); [reflexivity | exact IH].
Qed.

Lemma parse_feature_line u line key value :
  strip line = key ++ ":" ++ value ->
  free_of ":" key = true ->
  contains "feature" (lower (strip key)) || contains "name" (lower (strip key))
  = true ->
  Parser.parse_line u line
  = dict_set "feature_name" (VStr (strip value)) u.
Proof.
  intros L F K. unfold Parser.parse_line. rewrite L.
  rewrite PyFacts.contains_occurs, (PyMore.partition_char_free ":" key value F), K.
  destruct key; reflexivity.
Qed.

(** X3: the last line of a section decides its feature name when it is a
    feature line, that is, when the text before its first colon contains
    "feature" or "name" in any letter case: whatever the lines before it
    set, the section yields a record whose feature name is the stripped
    text after that colon, and whose other fields are what the earlier lines
    left. *)
Theorem last_feature_line_wins (body line key value : string) :
  free_of (ascii_of_nat 10) line = true ->
  strip line = key ++ ":" ++ value ->
  free_of ":" key = true ->
  contains "feature" (lower (strip key)) || contains "name" (lower (strip key))
  = true ->
  strip value <> "" ->
  exists u,
    Parser.parse_section (body ++ Parser.nl ++ line) = Some u /\
    dict_get "feature_name" u = VStr (strip value) /\
    forall field, field <> "feature_name" ->
      dict_get field u
      = dict_get field (fold_left Parser.parse_line (split Parser.nl body) []).
Proof.
  intros Fl L Fk K NE. unfold Parser.parse_section, Parser.nl.
  destruct (String.eqb (strip (body ++ _ ++ line)) "") eqn:B.
  { exfalso. apply String.eqb_eq, PyMore.strip_blank_iff in B.
    rewrite !PyFacts.all_chars_app in B.
    apply andb_true_iff in B as [_ B]. apply andb_true_iff in B as [_ B].
    apply PyMore.strip_blank_iff in B. rewrite L in B. now destruct key. }
  rewrite (PyMore.split_char_snoc _ body line Fl).
  rewrite fold_left_app. simpl fold_left.
  rewrite (parse_feature_line _ line key value L Fk K).
  rewrite dict_get_set_eq. simpl truthy.
  destruct (String.eqb (strip value) "") eqn:E.
  { apply String.eqb_eq in E. congruence. }
  simpl. eexists. split; [reflexivity |]. split.
  - apply dict_get_set_eq.
  - intros field Hf. apply dict_get_set_ne. congruence.
Qed.

Lemma last_feature_line_wins_witness :
  exists u,
    Parser.parse_section
      ("Feature Name: A" ++ Parser.nl ++ "Release Date: 2024" ++ Parser.nl
       ++ "  Feature Name:  B ")
    = Some u /\
    dict_get "feature_name" u = VStr "B" /\
    dict_get "release_date" u = VStr "2024".
Proof.
  destruct (last_feature_line_wins
              ("Feature Name: A" ++ Parser.nl ++ "Release Date: 2024")
              "  Feature Name:  B " "Feature Name" "  B")
    as (u & Hu & Hn & Ho); try reflexivity; [discriminate |].
  exists u. split; [exact Hu |]. split; [exact Hn |].
  rewrite (Ho "release_date"); [reflexivity | discriminate].
Defined.

(** * Further properties of the core web path and API branch *)

Module CoreFacts.

Local Arguments String.append : simpl nomatch.

Lemma upto_last_none c (s : string) :
  Core.upto_last c s = None <-> free_of c s = true.
Proof.
  unfold free_of. induction s as [|x s IH]; simpl; [now split |].
  destruct (Core.upto_last c s) as [r|].
  - split; [discriminate |]. intros H. apply andb_true_iff in H as [_ H].
    apply IH in H. discriminate.
  - destruct (Ascii.eqb x c); simpl; [split; discriminate |].
    split; intros _; [now apply IH | reflexivity].
Qed.

Lemma upto_last_some c (s r : string) :
  Core.upto_last c s = Some r ->
  exists body rest,
    s = body ++ String c rest /\ r = body ++ String c "" /\
    free_of c rest = true.
Proof.
  revert r. induction s as [|x s IH]; intros r; simpl; [discriminate |].
  destruct (Core.upto_last c s) as [r'|] eqn:U.
  - intros [= <-]. destruct (IH r' eq_refl) as (body & rest & -> & -> & F).
    now exists (String x body), rest.
  - destruct (Ascii.eqb x c) eqn:E; [|discriminate].
    apply Ascii.eqb_eq in E. subst x. intros [= <-].
    exists "", s. repeat split. now apply upto_last_none.
Qed.

Lemma json_match_some (text m : string) :
  Core.json_match text = Some m ->
  exists before body after,
    text = before ++ m ++ after /\ m = "{" ++ body ++ "}" /\
    contains "{" before = false /\ contains "}" after = false.
Proof.
  unfold Core.json_match.
  destruct (partition "{" text) as [[before rest]|] eqn:P; [|discriminate].
  destruct (Core.upto_last "}" rest) as [r|] eqn:U; [|discriminate].
  intros [= <-].
  apply upto_last_some in U as (body & after & -> & -> & F).
  exists before, body, after. repeat split.
  - apply PyFacts.partition_spec in P. rewrite P. simpl.
    now rewrite !PyFacts.app_assoc.
  - apply PyFacts.contains_false.
    eapply PyFacts.partition_left_free; [discriminate | exact P].
  - now rewrite PyMore.contains_char_free, F.
Qed.

Lemma json_match_none (text : string) :
  Core.json_match text = None <->
  contains "{" text = false \/
  exists before rest,
    text = before ++ "{" ++ rest /\
    contains "{" before = false /\ contains "}" rest = false.
Proof.
  unfold Core.json_match. split.
  - destruct (partition "{" text) as [[before rest]|] eqn:P.
    + destruct (Core.upto_last "}" rest) as [r|] eqn:U; [discriminate |].
      intros _. right. exists before, rest. repeat split.
      * now apply PyFacts.partition_spec in P.
      * apply PyFacts.contains_false.
        eapply PyFacts.partition_left_free; [discriminate | exact P].
      * apply upto_last_none in U. now rewrite PyMore.contains_char_free, U.
    + intros _. left. now apply PyFacts.contains_false.
  - intros [C | (before & rest & -> & Cb & Cr)].
    + apply PyFacts.contains_false in C. now rewrite C.
    + rewrite PyMore.contains_char_free in Cb, Cr.
      rewrite PyMore.partition_char_free by now destruct (free_of "{" before).
      assert (Core.upto_last "}" rest = None) as ->; [|reflexivity].
      apply upto_last_none. now destruct (free_of "}" rest).
Qed.

Lemma dict_lookup_set_eq k v (d : dict) : dict_lookup k (dict_set k v d) = Some v.
Proof.
  induction d as [|[k' v'] d IH]; simpl.
  - now rewrite String.eqb_refl.
  - destruct (String.eqb k k') eqn:E; simpl.
    + now rewrite String.eqb_refl.
    + rewrite E. exact IH.
Qed.

Lemma dict_lookup_set_ne k k' v (d : dict) :
  k <> k' -> dict_lookup k' (dict_set k v d) = dict_lookup k' d.
Proof.
  intros NE. induction d as [|[k0 v0] d IH]; simpl.
  - destruct (String.eqb k' k) eqn:E; [|reflexivity].
    apply String.eqb_eq in E. congruence.
  - destruct (String.eqb k k0) eqn:E; simpl.
    + apply String.eqb_eq in E. subst k0.
      destruct (String.eqb k' k) eqn:E'; [|reflexivity].
      apply String.eqb_eq in E'. congruence.
    + destruct (String.eqb k' k0); [reflexivity | exact IH].
Qed.

(** A default fills a missing key and changes nothing else. *)
Lemma set_default_lookup k v (d : dict) k' :
  dict_lookup k' (Core.set_default k v d)
  = match dict_lookup k' d with
    | Some x => Some x
    | None => if String.eqb k' k then Some v else None
    end.
Proof.
  unfold Core.set_default, dict_has.
  destruct (String.eqb k' k) eqn:E.
  - apply String.eqb_eq in E. subst k'.
    destruct (dict_lookup k d) as [x|] eqn:L; [now rewrite L |].
    apply dict_lookup_set_eq.
  - assert (k <> k') as NE.
    { intros ->. now rewrite String.eqb_refl in E. }
    destruct (dict_lookup k d).
    + now destruct (dict_lookup k' d).
    + rewrite dict_lookup_set_ne by exact NE. now destruct (dict_lookup k' d).
Qed.

End CoreFacts.

(** The dictionary the core web path returns for a decoded object: the
    object with the four defaults filled in. *)
Lemma core_defaults_lookup tool_name (parsed : dict) k :
  dict_lookup k
    (Core.set_default "updates" (VList [])
       (Core.set_default "source" (VStr "web_research")
          (Core.set_default "tool_name" (VStr tool_name)
             (Core.set_default "success" (VBool true) parsed))))
  = match dict_lookup k parsed with
    | Some x => Some x
    | None =>
        if String.eqb k "success" then Some (VBool true)
        else if String.eqb k "tool_name" then Some (VStr tool_name)
        else if String.eqb k "source" then Some (VStr "web_research")
        else if String.eqb k "updates" then Some (VList [])
        else None
    end.
Proof.
  rewrite !CoreFacts.set_default_lookup.
  destruct (dict_lookup k parsed); [reflexivity |].
  destruct (String.eqb k "success"); [reflexivity |].
  destruct (String.eqb k "tool_name"); [reflexivity |].
  destruct (String.eqb k "source"); reflexivity.
Qed.

(** X4: the text the core web path hands to [json.loads] is the part of the
    crew output from its first opening brace to its last closing brace;
    there is none exactly when the output holds no opening brace, or no
    closing brace after the first opening one. *)
Theorem json_match_first_to_last_brace (text : string) :
  (forall m, Core.json_match text = Some m ->
     exists before body after,
       text = before ++ m ++ after /\ m = "{" ++ body ++ "}" /\
       contains "{" before = false /\ contains "}" after = false) /\
  (Core.json_match text = None <->
   contains "{" text = false \/
   exists before rest,
     text = before ++ "{" ++ rest /\
     contains "{" before = false /\ contains "}" rest = false).
Proof.
  split; [intros m; apply CoreFacts.json_match_some
         | apply CoreFacts.json_match_none].
Qed.

Lemma json_match_first_to_last_brace_witness :
  exists before body after,
    "Found: {a: {b: 1}} and } more"%string
    = before ++ "{a: {b: 1}} and }" ++ after /\
    "{a: {b: 1}} and }"%string = "{" ++ body ++ "}" /\
    contains "{" before = false /\ contains "}" after = false.
Proof.
  destruct (json_match_first_to_last_brace "Found: {a: {b: 1}} and } more")
    as [H _].
  apply H. reflexivity.
Defined.

Lemma dict_has_lookup k (d : dict) :
  dict_has k d = true <-> exists v, dict_lookup k d = Some v.
Proof.
  unfold dict_has. destruct (dict_lookup k d) as [v|].
  - split; [now exists v | reflexivity].
  - split; [discriminate | intros [v H]; discriminate].
Qed.

Lemma core_defaults_has tool_name (parsed : dict) :
  let r := Core.set_default "updates" (VList [])
             (Core.set_default "source" (VStr "web_research")
                (Core.set_default "tool_name" (VStr tool_name)
                   (Core.set_default "success" (VBool true) parsed))) in
  dict_has "success" r = true /\ dict_has "tool_name" r = true /\
  dict_has "source" r = true /\ dict_has "updates" r = true.
Proof.
  intros r. repeat split; apply dict_has_lookup; unfold r;
    rewrite core_defaults_lookup; destruct (dict_lookup _ parsed); eauto.
Qed.

(** X5: the web path of the core variant raises only when building the
    task raises, and then with that exception; every result it returns is
    a dictionary with the keys success, tool_name and source. *)
Theorem core_web_result_shape (env : Env)
    (tool_name tool_type start_date end_date research_depth : string)
    (w : World) :
  let request := mkRequest tool_name tool_type (Core.year_of start_date)
                   (Core.year_of end_date) research_depth in
  let outcome := fst (Core._research_via_web env tool_name tool_type
                        start_date end_date research_depth w) in
  (forall msg, outcome = inl msg <-> crew env request = TaskRaises msg) /\
  (forall r, outcome = inr r ->
     dict_has "success" r = true /\ dict_has "tool_name" r = true /\
     dict_has "source" r = true).
Proof.
  intros request outcome. subst outcome.
  unfold Core._research_via_web, bind, modify, ret, raise. fold request.
  destruct (crew env request) as [m|m|m|text]; cbn [fst].
  - split; [intros msg; split; congruence | discriminate].
  - split; [intros msg; split; discriminate |].
    intros r [= <-]. now repeat split.
  - split; [intros msg; split; discriminate |].
    intros r [= <-]. now repeat split.
  - destruct (match Core.json_match text with
              | Some t => json_loads env t
              | None => _
              end) as [m|parsed].
    + split; [intros msg; split; discriminate |].
      intros r [= <-]. now repeat split.
    + destruct (core_defaults_has tool_name parsed) as (H1 & H2 & H3 & _).
      destruct (Core.len_error _); cbn [fst].
      * split; [intros msg; split; discriminate |].
        intros r [= <-]. now repeat split.
      * split; [intros msg; split; discriminate |].
        intros r [= <-]. now repeat split.
Qed.

Lemma core_web_result_shape_witness :
  exists r,
    fst (Core._research_via_web Sample.bad_json_env "Acme" "crm" "2023-01-01"
           "2024-01-01" "medium" Sample.empty_world) = inr r /\
    dict_has "success" r = true /\ dict_has "tool_name" r = true /\
    dict_has "source" r = true.
Proof.
  eexists. split; [reflexivity |].
  destruct (core_web_result_shape Sample.bad_json_env "Acme" "crm"
              "2023-01-01" "2024-01-01" "medium" Sample.empty_world) as [_ H].
  apply H. reflexivity.
Defined.

(** X6: when the crew output holds a JSON object that decodes and whose
    updates, if it has any, have a length, the core web path returns that
    object with nothing of it changed: every key the capability supplied
    keeps its value, its own success: false and its own updates included,
    and only the missing ones among success, tool_name, source and updates
    get their defaults (true, the tool name, web_research, the empty
    list). *)
Theorem capability_fields_kept (env : Env)
    (tool_name tool_type start_date end_date research_depth : string)
    (w : World) (text m : string) (parsed : dict) :
  crew env (mkRequest tool_name tool_type (Core.year_of start_date)
              (Core.year_of end_date) research_depth) = Returns text ->
  Core.json_match text = Some m ->
  json_loads env m = inr parsed ->
  match dict_lookup "updates" parsed with
  | Some v => Core.len_error v
  | None => None
  end = None ->
  exists r,
    fst (Core._research_via_web env tool_name tool_type start_date end_date
           research_depth w) = inr r /\
    (forall k v, dict_lookup k parsed = Some v -> dict_lookup k r = Some v) /\
    (dict_lookup "success" parsed = None -> dict_get "success" r = VBool true) /\
    (dict_lookup "tool_name" parsed = None ->
     dict_get "tool_name" r = VStr tool_name) /\
    (dict_lookup "source" parsed = None ->
     dict_get "source" r = VStr "web_research") /\
    (dict_lookup "updates" parsed = None -> dict_get "updates" r = VList []).
Proof.
  intros C J L Len.
  unfold Core._research_via_web, bind, modify, ret, raise.
  rewrite C, J, L. cbn [fst].
  set (r := Core.set_default "updates" _ _).
  assert (Core.len_error (dict_get "updates" r) = None) as ->.
  { unfold dict_get, r. rewrite core_defaults_lookup.
    destruct (dict_lookup "updates" parsed); [exact Len | reflexivity]. }
  exists r. split; [reflexivity |]. split.
  - intros k v H. unfold r. now rewrite core_defaults_lookup, H.
  - repeat split; intros H; unfold dict_get, r;
      now rewrite core_defaults_lookup, H.
Qed.

Lemma capability_fields_kept_witness :
  exists r,
    fst (Core._research_via_web Sample.self_reported_env "Acme" "crm"
           "2023-01-01" "2024-01-01" "medium" Sample.empty_world) = inr r /\
    dict_lookup "success" r = Some (VBool false) /\
    dict_lookup "updates" r
    = Some (VList [VDict [("feature_name", VStr "X")]]) /\
    dict_has "error" r = false.
Proof.
  destruct (capability_fields_kept Sample.self_reported_env "Acme" "crm"
              "2023-01-01" "2024-01-01" "medium" Sample.empty_world
              ("Here is the result: " ++ Sample.self_reported_json)
              Sample.self_reported_json
              [ ("success", VBool false);
                ("updates", VList [VDict [("feature_name", VStr "X")]]) ])
    as (r & Hr & Keep & _); try reflexivity.
  exists r. split; [exact Hr |].
  split; [now apply Keep |]. split; [now apply Keep |].
  vm_compute in Hr. injection Hr as <-. reflexivity.
Defined.

(** X7: when the decoded object has updates without a length (null, a
    boolean or a number), measuring them for the log line raises inside the
    outer [try], and the core web path returns its general failure result
    with the text of that [TypeError] and an empty updates list. *)
Theorem unsized_updates_fail (env : Env)
    (tool_name tool_type start_date end_date research_depth : string)
    (w : World) (text m msg : string) (parsed : dict) (v : value) :
  crew env (mkRequest tool_name tool_type (Core.year_of start_date)
              (Core.year_of end_date) research_depth) = Returns text ->
  Core.json_match text = Some m ->
  json_loads env m = inr parsed ->
  dict_lookup "updates" parsed = Some v ->
  Core.len_error v = Some msg ->
  fst (Core._research_via_web env tool_name tool_type start_date end_date
         research_depth w) = inr (Core.web_failure tool_name msg).
Proof.
  intros C J L U Len.
  unfold Core._research_via_web, bind, modify, ret, raise.
  rewrite C, J, L. cbn [fst].
  set (r := Core.set_default "updates" _ _).
  assert (Core.len_error (dict_get "updates" r) = Some msg) as ->;
    [|reflexivity].
  unfold dict_get, r. now rewrite core_defaults_lookup, U.
Qed.

Lemma unsized_updates_fail_witness :
  fst (Core._research_via_web Sample.unsized_updates_env "Acme" "crm"
         "2023-01-01" "2024-01-01" "medium" Sample.empty_world)
  = inr (Core.web_failure "Acme" "object of type 'NoneType' has no len()").
Proof.
  apply (unsized_updates_fail Sample.unsized_updates_env "Acme" "crm"
           "2023-01-01" "2024-01-01" "medium" Sample.empty_world
           Sample.null_updates_json Sample.null_updates_json _
           [("updates", VNone)] VNone); reflexivity.
Defined.

(** X8: the API branch succeeds exactly for a registry entry with a
    non-empty endpoint address and no authentication; it asks for setup
    exactly for an entry with a non-empty address and authentication; every
    failure it returns names a non-empty error; and no result of it, the
    success included, has an updates key (the placeholder carries
    updates_found instead). *)
Theorem api_branch_outcome (env : Env) (tool_name : string) :
  let api_results := Core._research_via_api env tool_name in
  (truthy (dict_get "success" api_results) = true <->
   exists info url,
     get_endpoint env tool_name = Some info /\ endpoint info = Some url /\
     url <> "" /\ auth_required info = false) /\
  (dict_get "needs_setup" api_results = VBool true <->
   exists info url,
     get_endpoint env tool_name = Some info /\ endpoint info = Some url /\
     url <> "" /\ auth_required info = true) /\
  (truthy (dict_get "success" api_results) = false ->
   exists msg, dict_get "error" api_results = VStr msg /\ msg <> "") /\
  dict_has "updates" api_results = false.
Proof.
  intros api_results. subst api_results. unfold Core._research_via_api.
  assert (forall info : EndpointDescriptor, forall b,
            (exists i u, Some info = Some i /\ endpoint i = Some u /\
                         u <> "" /\ auth_required i = b) ->
            exists u, endpoint info = Some u /\ u <> "" /\
                      auth_required info = b) as Inv.
  { intros info b (i & u & [= <-] & Hu & Hne & Ha). now exists u. }
  destruct (get_endpoint env tool_name) as [info|] eqn:G.
  2:{ cbn. repeat split; try discriminate;
        try (intros (i & u & Hi & _); discriminate Hi).
      intros _. eexists. split; [reflexivity | discriminate]. }
  destruct info as [[url|] auth]; cbn [endpoint auth_required].
  2:{ cbn. repeat split; try discriminate;
        try (intros H; apply Inv in H as (u & Hu & _); discriminate Hu).
      intros _. eexists. split; [reflexivity | discriminate]. }
  destruct (String.eqb url "") eqn:E.
  { apply String.eqb_eq in E. subst url. cbn.
    repeat split; try discriminate;
      try (intros H; apply Inv in H as (u & [= <-] & Hne & _); congruence).
    intros _. eexists. split; [reflexivity | discriminate]. }
  assert (url <> "") as NE by (intros ->; discriminate).
  destruct auth; cbn.
  - repeat split; try discriminate;
      try (intros H; apply Inv in H as (u & _ & _ & Ha); discriminate Ha).
    + intros _. eexists. exists url. repeat split. exact NE.
    + intros _. eexists. split; [reflexivity | discriminate].
  - repeat split; try discriminate;
      try (intros H; apply Inv in H as (u & _ & _ & Ha); discriminate Ha).
    intros _. eexists. exists url. repeat split. exact NE.
Qed.

Lemma api_branch_outcome_witness :
  truthy (dict_get "success" (Core._research_via_api Sample.open_api_env "Stripe"))
  = true /\
  dict_get "needs_setup" (Core._research_via_api Sample.gated_env "Salesforce")
  = VBool true.
Proof.
  split.
  - destruct (api_branch_outcome Sample.open_api_env "Stripe") as ([_ H] & _).
    apply H.
    exists (mkEndpoint (Some "https://api.example.com/changes") false),
           "https://api.example.com/changes"%string.
    split; [reflexivity |]. split; [reflexivity |].
    split; [discriminate | reflexivity].
  - destruct (api_branch_outcome Sample.gated_env "Salesforce")
      as (_ & [_ H] & _).
    apply H.
    exists (mkEndpoint (Some "https://api.example.com/changelog") true),
           "https://api.example.com/changelog"%string.
    split; [reflexivity |]. split; [reflexivity |].
    split; [discriminate | reflexivity].
Defined.

(** * Further properties of the per-tool protocol *)

Lemma truthy_success_nonempty (r : dict) :
  truthy (dict_get "success" r) = true -> r <> [].
Proof. intros H ->. discriminate H. Qed.




Lemma time_of_app env (a b : list Call) :
  time_of env (a ++ b) = time_of env a + time_of env b.
Proof. induction a as [|c a IH]; simpl; lia. Qed.

Lemma after_calls_refl env w : after_calls env [] w w.
Proof.
  unfold after_calls. simpl. rewrite app_nil_r. repeat split. lia.
Qed.

Lemma after_calls_call env c w : after_calls env [c] w (call env c w).
Proof. unfold after_calls, call. simpl. repeat split. lia. Qed.

Lemma after_calls_trans env (a b : list Call) w1 w2 w3 :
  after_calls env a w1 w2 -> after_calls env b w2 w3 ->
  after_calls env (a ++ b) w1 w3.
Proof.
  intros (F1 & C1 & N1 & S1) (F2 & C2 & N2 & S2). unfold after_calls.
  rewrite F2, F1, C2, C1, N2, N1, S2, S1, time_of_app, app_assoc.
  repeat split. lia.
Qed.




Lemma setup_fault_excluded env c :
  setup_fault env c = true -> ~ no_setup_fault env.
Proof.
  destruct c as [request|text]; [|discriminate]. simpl.
  destruct (crew env request) as [m|m|m|text] eqn:C; try discriminate;
    intros _ H; destruct (H request m) as [H1 H2]; congruence.
Qed.


(** The root parser never raises; it calls the analysis crew at most
    once. *)
Lemma root_parse_total env text w :
  exists l cs w',
    Root._parse_agent_output env text w = (inr l, w') /\
    after_calls env cs w w' /\
    Forall (fun c => setup_fault env c = false) cs.
Proof.
  unfold Root._parse_agent_output, bind, modify, ret.
  destruct (Parser.says_no_updates text).
  { exists [], [], w. split; [reflexivity |].
    split; [apply after_calls_refl | constructor]. }
  destruct (Parser.structured_updates text).
  2:{ eexists. exists [], w. split; [reflexivity |].
      split; [apply after_calls_refl | constructor]. }
  destruct (analysis env text) as [[| | | |[|u l]|]|];
    (eexists; exists [Analysis text]; eexists; split; [reflexivity |];
     split; [apply after_calls_call | now repeat constructor]).
Qed.

(** The web path of the root variant: it raises exactly for a fault while
    the task or the crew is built, after the one call that met it; else it
    returns a non-empty result after calls without such a fault. *)
Lemma root_web_cases env tool_name tool_type start_date end_date depth w :
  let request := mkRequest tool_name tool_type (Core.year_of start_date)
                   (Core.year_of end_date) depth in
  let run := Root._research_via_web env tool_name tool_type start_date
               end_date depth w in
  (exists msg,
     run = (inl msg, call env (Research request) w) /\
     setup_fault env (Research request) = true) \/
  (exists r cs w',
     run = (inr r, w') /\ r <> [] /\
     after_calls env cs w w' /\
     Forall (fun c => setup_fault env c = false) cs).
Proof.
  intros request run. subst run.
  unfold Root._research_via_web, bind at 1, modify. fold request.
  destruct (crew env request) as [m|m|m|text] eqn:C.
  - left. exists m. split; [reflexivity |]. simpl. now rewrite C.
  - left. exists m. split; [reflexivity |]. simpl. now rewrite C.
  - right. eexists. exists [Research request]. eexists.
    split; [reflexivity |]. split; [discriminate |].
    split; [apply after_calls_call |].
    constructor; [|constructor]. simpl. now rewrite C.
  - destruct (root_parse_total env text (call env (Research request) w))
      as (l & cs & w' & P & A & F).
    right. eexists. exists (Research request :: cs), w'.
    split; [unfold bind; rewrite P; reflexivity |].
    split; [discriminate |]. split.
    + apply (after_calls_trans env [Research request] cs _ _ _
               (after_calls_call env _ w) A).
    + constructor; [|exact F]. simpl. now rewrite C.
Qed.

(** The faults met while the task or the crew is built, among some calls. *)
Lemma root_research_cases env tool_name tool_type start_date end_date depth w :
  let run := Root.research_tool_updates env tool_name tool_type start_date
               end_date depth w in
  let hit := Core.cache_hit
               (Root._load_cache env w tool_name (start_date, end_date)) in
  (exists r, hit = Some r /\ run = (inr r, w)) \/
  (hit = None /\
   exists cs w',
     after_calls env cs w w' /\
     ((exists msg, run = (inl msg, w') /\
         ~ no_setup_fault env /\
         exists c, cs = [c] /\ setup_fault env c = true) \/
      (exists r, r <> [] /\
         Forall (fun c => setup_fault env c = false) cs /\
         run = (inr (VDict r), Root._save_cache env w' tool_name
                                 (start_date, end_date) r)))).
Proof.
  intros run hit.
  pose (via_web :=
          bind (Root._research_via_web env tool_name tool_type start_date
                  end_date depth)
               (fun web_results =>
                  bind (modify (fun w => Root._save_cache env w tool_name
                                           (start_date, end_date) web_results))
                       (fun _ => ret (VDict web_results)))).
  assert (run
          = match hit with
            | Some cached => (inr cached, w)
            | None =>
                if has_api_endpoint env tool_name
                   && truthy (dict_get "success"
                                (Root._research_via_api env tool_name))
                then (inr (VDict (Root._research_via_api env tool_name)),
                      Root._save_cache env w tool_name (start_date, end_date)
                        (Root._research_via_api env tool_name))
                else via_web w
            end) as ->.
  { subst run hit. unfold Root.research_tool_updates, bind at 1, get_world.
    destruct (Core.cache_hit _); [reflexivity |].
    destruct (has_api_endpoint env tool_name); [|reflexivity].
    now destruct (truthy _). }
  clearbody hit.
  destruct hit as [cached|]; [left; now exists cached |].
  right. split; [reflexivity |].
  assert (exists cs w',
            after_calls env cs w w' /\
            ((exists msg, via_web w = (inl msg, w') /\
                ~ no_setup_fault env /\
                exists c, cs = [c] /\ setup_fault env c = true) \/
             (exists r, r <> [] /\
                Forall (fun c => setup_fault env c = false) cs /\
                via_web w = (inr (VDict r), Root._save_cache env w' tool_name
                                              (start_date, end_date) r)))) as Web.
  { assert (via_web w
            = match Root._research_via_web env tool_name tool_type start_date
                      end_date depth w with
              | (inl e, w2) => (inl e, w2)
              | (inr r, w2) =>
                  (inr (VDict r), Root._save_cache env w2 tool_name
                                    (start_date, end_date) r)
              end) as -> by reflexivity.
    destruct (root_web_cases env tool_name tool_type start_date end_date
                depth w) as [(msg & -> & Fault) | (r & cs & w' & -> & NE & A & F)].
    - eexists. eexists. split; [apply after_calls_call |].
      left. exists msg. split; [reflexivity |].
      split; [exact (setup_fault_excluded _ _ Fault) |].
      eexists. split; [reflexivity | exact Fault].
    - exists cs, w'. split; [exact A |]. right. exists r. now repeat split. }
  destruct (has_api_endpoint env tool_name); [|exact Web].
  destruct (truthy (dict_get "success" (Root._research_via_api env tool_name)))
    eqn:T; [|exact Web].
  exists [], w. split; [apply after_calls_refl |].
  right. exists (Root._research_via_api env tool_name).
  split; [now apply truthy_success_nonempty |].
  split; [constructor | reflexivity].
Qed.







Lemma core_save_now env w tool_name range results :
  now (Core._save_cache env w tool_name range results) = now w.
Proof. unfold Core._save_cache. now destruct (writable env _). Qed.

Lemma root_save_now env w tool_name range results :
  now (Root._save_cache env w tool_name range results) = now w.
Proof. unfold Root._save_cache. now destruct (writable env _). Qed.

(** X9: for a tool whose registry entry has a non-empty endpoint address
    and asks for no authentication, a cache miss ends in the placeholder
    result of the API branch: it is returned and written to the cache, and
    the research capability is not called. The placeholder has no
    updates key. The same holds for the core and the root variant. *)
Theorem open_api_skips_web (env : Env) (w : World)
    (tool_name tool_type start_date end_date research_depth : string)
    (info : EndpointDescriptor) (url : string) :
  has_api_endpoint env tool_name = true ->
  get_endpoint env tool_name = Some info ->
  endpoint info = Some url -> url <> EmptyString ->
  auth_required info = false ->
  let placeholder := Core.api_placeholder tool_name url in
  dict_has "updates" placeholder = false /\
  (Core.cache_hit (Core._load_cache env w tool_name (start_date, end_date))
   = None ->
   Core.research_tool_updates env tool_name tool_type start_date end_date
     research_depth w
   = (inr (VDict placeholder),
      Core._save_cache env w tool_name (start_date, end_date) placeholder) /\
   calls (Core._save_cache env w tool_name (start_date, end_date) placeholder)
   = calls w) /\
  (Core.cache_hit (Root._load_cache env w tool_name (start_date, end_date))
   = None ->
   Root.research_tool_updates env tool_name tool_type start_date end_date
     research_depth w
   = (inr (VDict placeholder),
      Root._save_cache env w tool_name (start_date, end_date) placeholder) /\
   calls (Root._save_cache env w tool_name (start_date, end_date) placeholder)
   = calls w).
Proof.
  intros Has Get End NE Auth placeholder.
  assert (Core._research_via_api env tool_name = placeholder) as Api.
  { unfold Core._research_via_api. rewrite Get, End, Auth.
    destruct (String.eqb url "") eqn:E; [|reflexivity].
    apply String.eqb_eq in E. congruence. }
  split; [reflexivity |]. split.
  - intros Miss. split; [|apply core_save_cache_calls].
    unfold Core.research_tool_updates, bind at 1, get_world.
    rewrite Miss, Has, Api. reflexivity.
  - intros Miss. split.
    + unfold Root.research_tool_updates, bind at 1, get_world.
      unfold Root._research_via_api. rewrite Miss, Has, Api. reflexivity.
    + unfold Root._save_cache. now destruct (writable env _).
Qed.

Lemma open_api_skips_web_witness :
  let placeholder :=
    Core.api_placeholder "Stripe" "https://api.example.com/changes" in
  Core.research_tool_updates Sample.open_api_env "Stripe" "payments"
    "2023-01-01" "2024-01-01" "medium" Sample.empty_world
  = (inr (VDict placeholder),
     Core._save_cache Sample.open_api_env Sample.empty_world "Stripe"
       Sample.range_2023 placeholder) /\
  calls (Core._save_cache Sample.open_api_env Sample.empty_world "Stripe"
           Sample.range_2023 placeholder) = [].
Proof.
  intros placeholder.
  destruct (open_api_skips_web Sample.open_api_env Sample.empty_world
              "Stripe" "payments" "2023-01-01" "2024-01-01" "medium"
              (mkEndpoint (Some "https://api.example.com/changes") false)
              "https://api.example.com/changes")
    as (_ & H & _);
    [reflexivity | reflexivity | reflexivity | discriminate | reflexivity |].
  apply H. reflexivity.
Defined.





(** X12: caching is best effort. Whether the cache file can be written has
    no influence on what a run of the per-tool protocol returns or raises:
    with the same cache content, clock and collaborators, the outcome is
    the same for every write permission, in the core and in the root
    variant. *)
Theorem write_failure_never_changes_result (env : Env) (f : string -> bool)
    (w : World)
    (tool_name tool_type start_date end_date research_depth : string) :
  fst (Core.research_tool_updates (with_writable f env) tool_name tool_type
         start_date end_date research_depth w)
  = fst (Core.research_tool_updates env tool_name tool_type start_date
           end_date research_depth w) /\
  fst (Root.research_tool_updates (with_writable f env) tool_name tool_type
         start_date end_date research_depth w)
  = fst (Root.research_tool_updates env tool_name tool_type start_date
           end_date research_depth w).
Proof.
  split.
  - unfold Core.research_tool_updates, bind, get_world, modify, ret.
    change (Core._load_cache (with_writable f env))
      with (Core._load_cache env).
    change (Core._research_via_api (with_writable f env))
      with (Core._research_via_api env).
    change (Core._research_via_web (with_writable f env))
      with (Core._research_via_web env).
    change (has_api_endpoint (with_writable f env))
      with (has_api_endpoint env).
    destruct (Core.cache_hit _); [reflexivity |].
    destruct (has_api_endpoint env tool_name);
      [destruct (truthy _); [reflexivity |] |];
      now destruct (Core._research_via_web _ _ _ _ _ _ w) as [[?|?] ?].
  - unfold Root.research_tool_updates, bind, get_world, modify, ret.
    change (Root._load_cache (with_writable f env))
      with (Root._load_cache env).
    change (Root._research_via_api (with_writable f env))
      with (Root._research_via_api env).
    change (Root._research_via_web (with_writable f env))
      with (Root._research_via_web env).
    change (has_api_endpoint (with_writable f env))
      with (has_api_endpoint env).
    destruct (Core.cache_hit _); [reflexivity |].
    destruct (has_api_endpoint env tool_name);
      [destruct (truthy _); [reflexivity |] |];
      now destruct (Root._research_via_web _ _ _ _ _ _ w) as [[?|?] ?].
Qed.

(** * The stack run *)

Lemma dict_lookup_keys k (d : dict) :
  is_Some (dict_lookup k d) <-> In k (map fst d).
Proof.
  induction d as [|[k' v'] d IH]; simpl.
  - split; [intros [v H]; discriminate | intros []].
  - destruct (String.eqb k k') eqn:E.
    + apply String.eqb_eq in E. subst. split; [now left | now eexists].
    + rewrite IH. split; [now right |].
      intros [H|H]; [|exact H]. subst. now rewrite String.eqb_refl in E.
Qed.

Lemma dict_set_keys_iff k v (d : dict) x :
  In x (map fst (dict_set k v d)) <-> x = k \/ In x (map fst d).
Proof.
  rewrite <- !dict_lookup_keys. destruct (String.eqb_spec k x) as [<-|NE].
  - rewrite CoreFacts.dict_lookup_set_eq. split; [now left | now eexists].
  - rewrite CoreFacts.dict_lookup_set_ne by exact NE.
    split; [now right | intros [H|H]; [congruence | exact H]].
Qed.

(** Counting over values that all are objects never raises. *)
Lemma count_where_objects keep (vs : list value) :
  Forall is_object vs ->
  Root.count_where keep vs
  = inr (length (List.filter
                   (fun v => match v with
                             | VDict d => keep (dict_get "success" d)
                             | _ => false
                             end) vs)).
Proof.
  induction 1 as [|v vs [d ->] _ IH]; [reflexivity |].
  simpl. rewrite IH. now destruct (keep (dict_get "success" d)).
Qed.

(** The first value that is no object makes the count raise. *)
Lemma count_where_first keep (pre post : list value) v msg :
  Forall is_object pre -> Root.get_success v = inl msg ->
  Root.count_where keep (pre ++ v :: post) = inl msg.
Proof.
  intros F G. induction F as [|x pre [d ->] _ IH]; simpl.
  - now rewrite G.
  - now rewrite IH.
Qed.


Lemma get_success_raises v :
  ~ is_object v -> exists msg, Root.get_success v = inl msg.
Proof.
  intros N. destruct v; try (now eexists). destruct N. now eexists.
Qed.

Lemma filter_failed_objects (vs : list value) :
  Forall is_object vs ->
  List.filter (fun v => match v with
                        | VDict d => negb (truthy (dict_get "success" d))
                        | _ => false
                        end) vs
  = List.filter (fun v => negb (success_of v)) vs.
Proof.
  induction 1 as [|v vs [d ->] _ IH]; [reflexivity |].
  simpl. now rewrite IH.
Qed.

Lemma objects_values_set k v (results : dict) :
  is_object v -> Forall is_object (Root.values results) ->
  Forall is_object (Root.values (dict_set k v results)).
Proof.
  unfold Root.values. intros O F.
  rewrite Forall_map in *. now apply dict_set_forall.
Qed.

(** What the readers hand out is the result of a document of the cache
    directory. *)
Lemma root_load_from_file env w tool_name range v :
  Root._load_cache env w tool_name range = Some v ->
  exists k d, files w !! k = Some (Doc d) /\ doc_results d = Some v.
Proof.
  unfold Root._load_cache.
  destruct (files w !! _) as [[|d]|] eqn:F; try discriminate.
  destruct (Root.cached_time _); [|discriminate].
  destruct (is_fresh _ _ _); [|discriminate].
  intros R. now exists (Root.cache_key tool_name range), d.
Qed.

Lemma cache_hit_some (cached : option value) v :
  Core.cache_hit cached = Some v -> cached = Some v /\ truthy v = true.
Proof.
  destruct cached as [c|]; [|discriminate]. simpl.
  destruct (truthy c) eqn:T; [|discriminate]. intros [= <-]. now split.
Qed.

Lemma results_are_objects_empty : results_are_objects ∅.
Proof. intros k d v F. rewrite lookup_empty in F. discriminate. Qed.

Lemma root_save_objects env w tool_name range results :
  results_are_objects (files w) ->
  results_are_objects (files (Root._save_cache env w tool_name range results)).
Proof.
  intros Inv. unfold Root._save_cache. destruct (writable env _); [|exact Inv].
  intros k d v. cbn [files set_files].
  destruct (decide (Root.cache_key tool_name range = k)) as [<-|NE].
  - rewrite lookup_insert_eq. intros [= <-]. cbn [doc_results].
    intros [= <-]. now eexists.
  - rewrite lookup_insert_ne by exact NE. apply Inv.
Qed.

(** Over a cache directory that holds objects only, the per-tool protocol
    returns objects only and leaves such a directory behind. *)
Lemma root_research_objects env tool_name tool_type start_date end_date
    depth w :
  results_are_objects (files w) ->
  let run := Root.research_tool_updates env tool_name tool_type start_date
               end_date depth w in
  results_are_objects (files (snd run)) /\
  (forall v, fst run = inr v -> is_object v).
Proof.
  intros Inv run. subst run.
  destruct (root_research_cases env tool_name tool_type start_date end_date
              depth w)
    as [(c & Hit & E) | (_ & cs & w' & A & [(m & E & _) | (r & _ & _ & E)])];
    rewrite E; cbn [fst snd].
  - split; [exact Inv |]. intros v [= <-].
    apply cache_hit_some in Hit as [L _].
    apply root_load_from_file in L as (k & d & F & R).
    exact (Inv _ _ _ F R).
  - destruct A as (Hf & _). rewrite Hf. split; [exact Inv | discriminate].
  - destruct A as (Hf & _). split.
    + apply root_save_objects. now rewrite Hf.
    + intros v [= <-]. now eexists.
Qed.

Section Stack.

Variable env : Env.
Variables start_date end_date research_depth : string.

Let research (tool : Root.Tool) : M value :=
  Root.research_tool_updates env (Root.name_of tool) (Root.type_of tool)
                             start_date end_date research_depth.

Let loop := Root.stack_loop env start_date end_date research_depth.

(** One round records the entry of its tool and pauses one second after a
    research that returned. *)
Lemma stack_step_spec results tool w :
  Root.stack_step env start_date end_date research_depth results tool w
  = (inr (dict_set (Root.name_of tool) (entry_of (fst (research tool w)))
                   results),
     match fst (research tool w) with
     | inl _ => snd (research tool w)
     | inr _ => sleep 1 (snd (research tool w))
     end).
Proof.
  unfold Root.stack_step, try_except, bind, modify, ret, research.
  now destruct (Root.research_tool_updates _ _ _ _ _ _ w) as [[msg|r] w'].
Qed.

Lemma stack_loop_cons tool rest results w :
  loop (tool :: rest) results w
  = match Root.stack_step env start_date end_date research_depth results tool w with
    | (inl e, w') => (inl e, w')
    | (inr results', w') => loop rest results' w'
    end.
Proof. reflexivity. Qed.

(** The loop always runs to its end. *)
Lemma stack_loop_total tools results w :
  exists results' w', loop tools results w = (inr results', w').
Proof.
  revert results w. induction tools as [|tool rest IH]; intros results w.
  - now exists results, w.
  - rewrite stack_loop_cons, stack_step_spec. apply IH.
Qed.

Lemma stack_loop_app pre post results w results1 w1 :
  loop pre results w = (inr results1, w1) ->
  loop (pre ++ post)%list results w = loop post results1 w1.
Proof.
  revert results w. induction pre as [|tool pre IH]; intros results w H.
  - injection H as -> ->. reflexivity.
  - rewrite <- app_comm_cons, stack_loop_cons.
    rewrite stack_loop_cons in H. rewrite stack_step_spec in *.
    now apply IH.
Qed.

(** A later round touches the entry of its own tool name only. *)
Lemma stack_loop_keeps tools results w results' w' k :
  loop tools results w = (inr results', w') ->
  ~ In k (map Root.name_of tools) ->
  dict_lookup k results' = dict_lookup k results.
Proof.
  revert results w. induction tools as [|tool rest IH]; intros results w H NI.
  - injection H as -> ->. reflexivity.
  - rewrite stack_loop_cons, stack_step_spec in H.
    simpl in NI. rewrite (IH _ _ H) by tauto.
    apply CoreFacts.dict_lookup_set_ne. tauto.
Qed.

Lemma stack_loop_keys tools results w results' w' :
  loop tools results w = (inr results', w') ->
  (NoDup (map fst results) -> NoDup (map fst results')) /\
  (forall name,
     In name (map fst results')
     <-> In name (map fst results) \/ In name (map Root.name_of tools)).
Proof.
  revert results w. induction tools as [|tool rest IH]; intros results w H.
  - injection H as -> ->. split; [auto |]. intros name. simpl. tauto.
  - rewrite stack_loop_cons, stack_step_spec in H.
    destruct (IH _ _ H) as [ND Keys]. split.
    + intros N. apply ND. now apply dict_set_nodup.
    + intros name. rewrite Keys, dict_set_keys_iff. simpl.
      split; [intros [[->|?]|?] | intros [?|[<-|?]]]; tauto.
Qed.

(** Over a cache directory that holds objects only, every entry the loop
    records is an object. *)
Lemma stack_loop_objects tools results w results' w' :
  loop tools results w = (inr results', w') ->
  results_are_objects (files w) ->
  Forall is_object (Root.values results) ->
  Forall is_object (Root.values results').
Proof.
  revert results w. induction tools as [|tool rest IH]; intros results w H I F.
  - now injection H as <- <-.
  - rewrite stack_loop_cons, stack_step_spec in H.
    destruct (root_research_objects env (Root.name_of tool) (Root.type_of tool)
                start_date end_date research_depth w I) as [I' O].
    fold (research tool) in I', O.
    apply (IH _ _ H).
    + now destruct (fst (research tool w)).
    + apply objects_values_set; [|exact F].
      destruct (fst (research tool w)) as [msg|v] eqn:E; simpl.
      * now eexists.
      * now apply O.
Qed.

(** The run is the loop followed by the two counts, which raise outside
    the [try] of the loop for an entry that is no object. *)
Lemma stack_run_spec tools w results' w' :
  loop tools [] w = (inr results', w') ->
  Root.research_tool_stack env tools start_date end_date research_depth w
  = match Root.count_where truthy (Root.values results') with
    | inl msg => (inl msg, w')
    | inr successful =>
        match Root.count_where (fun success => negb (truthy success))
                               (Root.values results') with
        | inl msg => (inl msg, w')
        | inr failed =>
            (inr (Root.mkStackResult
                    (length tools) successful failed results'
                    (start_date ++ " to " ++ end_date)
                    (isoformat env (now w'))), w')
        end
    end.
Proof.
  intros E. unfold Root.research_tool_stack, bind at 1. fold loop.
  rewrite E.
  destruct (Root.count_where truthy _); [reflexivity |].
  now destruct (Root.count_where _ _).
Qed.

Lemma stack_run_objects tools w results' w' :
  loop tools [] w = (inr results', w') ->
  Forall is_object (Root.values results') ->
  Root.research_tool_stack env tools start_date end_date research_depth w
  = (inr (Root.mkStackResult
            (length tools)
            (length (List.filter success_of (Root.values results')))
            (length (List.filter (fun v => negb (success_of v))
                                 (Root.values results')))
            results'
            (start_date ++ " to " ++ end_date)
            (isoformat env (now w'))), w').
Proof.
  intros E O. rewrite (stack_run_spec _ _ _ _ E).
  rewrite !count_where_objects by exact O.
  now rewrite filter_failed_objects by exact O.
Qed.

Lemma stack_run_raises tools w results' w' pre v post msg :
  loop tools [] w = (inr results', w') ->
  Root.values results' = (pre ++ v :: post)%list ->
  Forall is_object pre -> Root.get_success v = inl msg ->
  Root.research_tool_stack env tools start_date end_date research_depth w
  = (inl msg, w').
Proof.
  intros E V O G. rewrite (stack_run_spec _ _ _ _ E), V.
  now rewrite (count_where_first _ _ _ _ _ O G).
Qed.


End Stack.





(** Claim C9 as stated fails in two ways. When a later tool has the name of
    the faulting one, the research of the first tool raises, the second
    tool of the same name succeeds, and the one entry under that name is
    the success. And when a fresh cache file holds a list as its results,
    the per-tool protocol returns the list as a cache hit, the loop records
    it, and counting the successes after the loop raises: the exception
    escapes the stack run. *)
Lemma stack_entry_replaced_or_run_aborted :
  (let tools := [Sample.tool "Acme" "crm"; Sample.tool "Acme" "erp"] in
   let brief := Research (mkRequest "Acme" "crm" "2023" "2024" "medium") in
   Root.research_tool_updates Sample.crm_fault_env "Acme" "crm"
     "2023-01-01" "2024-01-01" "medium" Sample.empty_world
   = (inl "crew could not be built"%string,
      call Sample.crm_fault_env brief Sample.empty_world) /\
   exists agg w',
     Root.research_tool_stack Sample.crm_fault_env tools
       "2023-01-01" "2024-01-01" "medium" Sample.empty_world = (inr agg, w') /\
     exists entry,
       dict_lookup "Acme" (Root.results agg) = Some (VDict entry) /\
       dict_get "success" entry = VBool true /\
       dict_get "tool_type" entry = VStr "erp") /\
  (let tools := [Sample.tool "Ledger" "erp"; Sample.tool "Acme" "crm"] in
   Root.research_tool_updates Sample.env "Acme" "crm"
     "2023-01-01" "2024-01-01" "medium" Sample.list_results_world
   = (inr (VList [VStr "stale"]), Sample.list_results_world) /\
   fst (Root.research_tool_stack Sample.env tools
          "2023-01-01" "2024-01-01" "medium" Sample.list_results_world)
   = inl "'list' object has no attribute 'get'"%string).
Proof.
  split.
  - intros tools brief. split; [reflexivity |].
    destruct (stack_loop_total Sample.crm_fault_env "2023-01-01" "2024-01-01"
                "medium" tools [] Sample.empty_world) as (results' & w' & Loop).
    pose proof (stack_run_spec _ _ _ _ _ _ _ _ Loop) as Run.
    vm_compute in Loop. injection Loop as <- <-.
    eexists. eexists. split; [exact Run |].
    eexists. split; [reflexivity |]. split; reflexivity.
  - intros tools. split; [vm_compute; reflexivity |].
    destruct (stack_loop_total Sample.env "2023-01-01" "2024-01-01"
                "medium" tools [] Sample.list_results_world)
      as (results' & w' & Loop).
    rewrite (stack_run_spec _ _ _ _ _ _ _ _ Loop).
    vm_compute in Loop. injection Loop as <- <-. reflexivity.
Qed.

(** Claim C9, amended: the loop of a stack run never raises, for every list
    of tools and whatever the research of single tools does; it records an
    entry under the name of every tool; and for a tool whose name does not
    come again later in the list, that entry is what its own round
    recorded: the failure entry {success: false, error: the message} when
    its research raised, and else the result of the per-tool protocol run
    in the world the earlier rounds left behind. The run then returns the
    aggregate with these entries when all of them are objects, and they are
    whenever every result held in the cache directory at the start is an
    object, as in every file the researcher itself wrote; when they are
    not, the run raises the [AttributeError] of the first entry that is no
    object, after the loop. *)
Theorem stack_resilience (env : Env) (tools : list Root.Tool)
    (start_date end_date research_depth : string) (w : World) :
  let run := Root.research_tool_stack env tools start_date end_date
               research_depth w in
  exists recorded w',
    Root.stack_loop env start_date end_date research_depth tools [] w
    = (inr recorded, w') /\
    snd run = w' /\
    (forall tool, In tool tools ->
       is_Some (dict_lookup (Root.name_of tool) recorded)) /\
    (forall pre tool post results1 w1,
       tools = (pre ++ tool :: post)%list ->
       Root.stack_loop env start_date end_date research_depth pre [] w
       = (inr results1, w1) ->
       ~ In (Root.name_of tool) (map Root.name_of post) ->
       dict_lookup (Root.name_of tool) recorded
       = Some (entry_of
                 (fst (Root.research_tool_updates env (Root.name_of tool)
                         (Root.type_of tool) start_date end_date
                         research_depth w1)))) /\
    (Forall is_object (Root.values recorded) ->
     exists agg,
       fst run = inr agg /\ Root.results agg = recorded /\
       Root.total_tools agg = length tools) /\
    (results_are_objects (files w) ->
     Forall is_object (Root.values recorded)) /\
    (forall pre v post,
       Root.values recorded = (pre ++ v :: post)%list ->
       Forall is_object pre -> ~ is_object v ->
       exists msg, Root.get_success v = inl msg /\ fst run = inl msg).
Proof.
  intros run. subst run.
  destruct (stack_loop_total env start_date end_date research_depth tools [] w)
    as (recorded & w' & Loop).
  exists recorded, w'. split; [exact Loop |].
  pose proof (stack_run_spec _ _ _ _ _ _ _ _ Loop) as Run.
  split.
  { rewrite Run. destruct (Root.count_where truthy _); [reflexivity |].
    now destruct (Root.count_where _ _). }
  split.
  { intros tool Hin. apply dict_lookup_keys.
    apply (stack_loop_keys _ _ _ _ _ _ _ _ _ Loop). right. now apply in_map. }
  split.
  { intros pre tool post results1 w1 -> Pre Last.
    rewrite (stack_loop_app _ _ _ _ _ (tool :: post) _ _ _ _ Pre) in Loop.
    rewrite stack_loop_cons, stack_step_spec in Loop.
    rewrite (stack_loop_keeps _ _ _ _ _ _ _ _ _ _ Loop Last).
    apply CoreFacts.dict_lookup_set_eq. }
  split.
  { intros O. rewrite (stack_run_objects _ _ _ _ _ _ _ _ Loop O).
    eexists. split; [reflexivity |]. split; reflexivity. }
  split.
  { intros I. apply (stack_loop_objects _ _ _ _ _ _ _ _ _ Loop I).
    constructor. }
  intros pre v post V O N.
  destruct (get_success_raises v N) as [msg G]. exists msg.
  split; [exact G |].
  now rewrite (stack_run_raises _ _ _ _ _ _ _ _ _ _ _ _ Loop V O G).
Qed.

(** Three tools, the second of which cannot be researched. *)
Lemma stack_resilience_witness :
  let tools := [ Sample.tool "Ledger" "erp"; Sample.tool "Acme" "crm";
                 Sample.tool "Vault" "storage" ] in
  exists agg,
    fst (Root.research_tool_stack Sample.crm_fault_env tools
           "2023-01-01" "2024-01-01" "medium" Sample.empty_world) = inr agg /\
    dict_lookup "Acme" (Root.results agg)
    = Some (VDict (Root.stack_failure "crew could not be built")).
Proof.
  intros tools.
  destruct (stack_resilience Sample.crm_fault_env tools
              "2023-01-01" "2024-01-01" "medium" Sample.empty_world)
    as (recorded & w' & Loop & _ & _ & Entry & Returns & Objects & _).
  destruct Returns as (agg & Run & Res & _).
  { apply Objects. exact results_are_objects_empty. }
  exists agg. split; [exact Run |]. rewrite Res.
  destruct (stack_loop_total Sample.crm_fault_env "2023-01-01" "2024-01-01"
              "medium" [Sample.tool "Ledger" "erp"] [] Sample.empty_world)
    as (results1 & w1 & Pre).
  assert (~ In (Root.name_of (Sample.tool "Acme" "crm"))
              (map Root.name_of [Sample.tool "Vault" "storage"])) as Last.
  { simpl. intros [H|[]]. discriminate H. }
  pose proof (Entry [Sample.tool "Ledger" "erp"] (Sample.tool "Acme" "crm")
                [Sample.tool "Vault" "storage"] results1 w1 eq_refl Pre Last) as E.
  vm_compute in Pre. injection Pre as <- <-.
  etransitivity; [exact E | reflexivity].
Defined.




(** * Failure results *)

(** Claim C4 at its failing inputs. The failure entry the stack run records
    for a tool whose research raises has no updates at all, and neither has
    the failure result of the core web path for output that does not decode
    as JSON; the general exception handler of the same web path does carry
    the empty updates sequence. *)
Theorem failure_results_without_updates :
  let stack_entry := [("success", VBool false);
                      ("error", VStr "crew could not be built")] in
  let decode_failure :=
    [ ("success", VBool false);
      ("tool_name", VStr "Acme");
      ("source", VStr "web_research");
      ("error", VStr "JSON parse error: Expecting property name enclosed in double quotes");
      ("raw_output", VStr "Result: {oops}") ] in
  (exists agg w',
     Root.research_tool_stack Sample.crm_fault_env [Sample.tool "Acme" "crm"]
       "2023-01-01" "2024-01-01" "medium" Sample.empty_world = (inr agg, w') /\
     dict_lookup "Acme" (Root.results agg) = Some (VDict stack_entry) /\
     Root.failed agg = 1%nat) /\
  dict_has "updates" stack_entry = false /\
  fst (Core.research_tool_updates Sample.bad_json_env "Acme" "crm"
         "2023-01-01" "2024-01-01" "medium" Sample.empty_world)
  = inr (VDict decode_failure) /\
  dict_has "updates" decode_failure = false /\
  dict_get "updates" (Core.web_failure "Acme" "timed out") = VList [] /\
  dict_get "updates" (Root.web_failure "Acme" "timed out") = VList [].
Proof.
  intros stack_entry decode_failure. split; [|repeat split; reflexivity].
  destruct (stack_loop_total Sample.crm_fault_env "2023-01-01" "2024-01-01"
              "medium" [Sample.tool "Acme" "crm"] [] Sample.empty_world)
    as (results' & w' & Loop).
  pose proof (stack_run_spec _ _ _ _ _ _ _ _ Loop) as Run.
  vm_compute in Loop. injection Loop as <- <-.
  eexists. eexists. split; [exact Run |].
  split; reflexivity.
Qed.

(** * Further properties of the stack run *)


















(** * Properties of the audit driver (src/simple_audit_main.py) *)

(** X15: the tool type inferred from a category is always one of the ten
    known types; it does not depend on the letter case of the category; and
    a category that mentions crm, in any letter case and anywhere, is typed
    crm whatever else it mentions. *)
Theorem tool_type_inference :
  (forall category, In (Main._infer_tool_type category) Main.tool_types) /\
  (forall a b, Spec.differ_in_case a b ->
     Main._infer_tool_type a = Main._infer_tool_type b) /\
  (forall before occurrence after,
     lower occurrence = "crm" ->
     Main._infer_tool_type (before ++ occurrence ++ after) = "crm").
Proof.
  split; [|split].
  - intros category. unfold Main._infer_tool_type, Main.tool_types.
    repeat match goal with
           | |- context [if ?b then _ else _] => destruct b
           end; simpl; tauto.
  - intros a b D. unfold Main._infer_tool_type.
    now rewrite (differ_in_case_lower a b D).
  - intros before occurrence after L. unfold Main._infer_tool_type.
    rewrite !PyFacts.lower_app, L. now rewrite PyFacts.contains_occurs.
Qed.

Lemma tool_type_inference_witness :
  Main._infer_tool_type "Portfolio accounting and CRM" = "crm"%string /\
  Main._infer_tool_type "Acme CRM" = Main._infer_tool_type "ACME crm".
Proof.
  destruct tool_type_inference as (_ & Case & Crm). split.
  - apply (Crm "Portfolio accounting and " "CRM" ""). reflexivity.
  - apply Case. exact acme_differ_in_case.
Defined.

Lemma datetime_valid y m d date :
  Main.datetime y m d = Some date ->
  date = Main.mkDate y m d /\ 1 <= y <= 9999 /\ 1 <= m <= 12 /\
  1 <= d <= Main.days_in_month y m.
Proof.
  unfold Main.datetime.
  destruct (_ && _) eqn:B; [|discriminate]. intros [= <-].
  repeat (apply andb_true_iff in B as [B ?]).
  rewrite Z.leb_le in *. repeat split; assumption.
Qed.

Lemma datetime_check y m d :
  1 <= y <= 9999 -> 1 <= m <= 12 -> 1 <= d ->
  Main.datetime y m d
  = if d <=? Main.days_in_month y m then Some (Main.mkDate y m d) else None.
Proof.
  intros Hy Hm Hd. unfold Main.datetime.
  assert ((1 <=? y) = true) as -> by (apply Z.leb_le; lia).
  assert ((y <=? 9999) = true) as -> by (apply Z.leb_le; lia).
  assert ((1 <=? m) = true) as -> by (apply Z.leb_le; lia).
  assert ((m <=? 12) = true) as -> by (apply Z.leb_le; lia).
  assert ((1 <=? d) = true) as -> by (apply Z.leb_le; lia).
  reflexivity.
Qed.

Lemma days_in_month_bounds y m : 28 <= Main.days_in_month y m <= 31.
Proof.
  unfold Main.days_in_month.
  destruct (m =? 2); [destruct (Main.is_leap y); lia |].
  destruct (_ || _); lia.
Qed.

Lemma days_in_month_other y y' m :
  m <> 2 -> Main.days_in_month y m = Main.days_in_month y' m.
Proof.
  intros NE. unfold Main.days_in_month.
  destruct (m =? 2) eqn:E; [apply Z.eqb_eq in E; contradiction | reflexivity].
Qed.

Lemma days_in_february y :
  Main.days_in_month y 2 = if Main.is_leap y then 29 else 28.
Proof. reflexivity. Qed.

Lemma leap_two_years_before y : Main.is_leap y = true -> Main.is_leap (y - 2) = false.
Proof.
  unfold Main.is_leap. intros H. apply andb_true_iff in H as [H _].
  apply Z.eqb_eq in H.
  assert (((y - 2) mod 4 =? 0) = false) as ->; [|reflexivity].
  apply Z.eqb_neq. Z.div_mod_to_equations. lia.
Qed.

(** X16: the research window of the audit. For a valid date of today and a
    start year within 1..9999, computing the window raises [ValueError]
    exactly when today is the 29th of February and the start year is not a
    leap year; with the default window of two years that is every 29th of
    February. *)
Theorem date_window_leap_day (research_window_years : Z) (today : Main.Date) :
  Main.datetime (Main.year today) (Main.month today) (Main.day today)
  = Some today ->
  1 <= Main.year today - research_window_years <= 9999 ->
  (Main._calculate_date_window research_window_years today = None <->
   Main.month today = 2 /\ Main.day today = 29 /\
   Main.is_leap (Main.year today - research_window_years) = false) /\
  (research_window_years = 2 ->
   Main.month today = 2 -> Main.day today = 29 ->
   Main._calculate_date_window research_window_years today = None).
Proof.
  intros V Hy. apply datetime_valid in V as (_ & _ & Hm & Hd).
  unfold Main._calculate_date_window.
  rewrite datetime_check by (try assumption; lia).
  set (y' := Main.year today - research_window_years) in *.
  assert ((Main.day today <=? Main.days_in_month y' (Main.month today)) = false
          <-> Main.month today = 2 /\ Main.day today = 29 /\
              Main.is_leap y' = false) as Iff.
  { rewrite Z.leb_gt. split.
    - intros Gt. destruct (Z.eq_dec (Main.month today) 2) as [E|NE].
      + rewrite E in *. rewrite days_in_february in *.
        destruct (Main.is_leap y'), (Main.is_leap (Main.year today));
          repeat split; try reflexivity; try assumption; lia.
      + rewrite (days_in_month_other y' (Main.year today)) in Gt by exact NE.
        lia.
    - intros (-> & -> & L). rewrite days_in_february, L. lia. }
  split.
  - destruct (_ <=? _); [|tauto].
    split; [discriminate |]. intros H. apply Iff in H. discriminate.
  - intros -> Em Ed.
    assert (Main.is_leap (Main.year today) = true) as Leap.
    { rewrite Em, Ed, days_in_february in Hd.
      destruct (Main.is_leap (Main.year today)); [reflexivity | lia]. }
    apply leap_two_years_before in Leap.
    assert ((Main.day today <=? Main.days_in_month y' (Main.month today))
            = false) as ->; [|reflexivity].
    apply Iff. now repeat split.
Qed.

Lemma date_window_leap_day_witness :
  Main._calculate_date_window 2 (Main.mkDate 2024 2 29) = None /\
  Main._calculate_date_window 4 (Main.mkDate 2024 2 29)
  = Some ("2020-02-29"%string, "2024-02-29"%string).
Proof.
  split.
  - destruct (date_window_leap_day 2 (Main.mkDate 2024 2 29) eq_refl)
      as [_ H]; [cbn; lia |].
    apply H; reflexivity.
  - destruct (date_window_leap_day 4 (Main.mkDate 2024 2 29) eq_refl)
      as [[H _] _]; [cbn; lia |].
    destruct (Main._calculate_date_window 4 (Main.mkDate 2024 2 29)) eqn:E;
      [vm_compute in E; injection E as <-; reflexivity |].
    destruct (H eq_refl) as (_ & _ & L). vm_compute in L. discriminate L.
Defined.

Module DateFacts.

Local Arguments String.append : simpl nomatch.

Lemma digit_cases k :
  0 <= k < 10 ->
  k = 0 \/ k = 1 \/ k = 2 \/ k = 3 \/ k = 4 \/ k = 5 \/ k = 6 \/ k = 7
  \/ k = 8 \/ k = 9.
Proof. lia. Qed.

Lemma digit_is_digit k :
  0 <= k < 10 ->
  Spec.is_digit (Main.digit k) = true /\ Main.digit k <> "-"%char.
Proof.
  intros H. apply digit_cases in H.
  repeat (destruct H as [-> | H]; [split; [reflexivity | discriminate] |]).
  subst k. split; [reflexivity | discriminate].
Qed.

Lemma decimal_four_digits y :
  1000 <= y <= 9999 ->
  Main.decimal 3 y
  = String (Main.digit (y / 1000))
      (String (Main.digit (y / 100 mod 10))
         (String (Main.digit (y / 10 mod 10))
            (String (Main.digit (y mod 10)) ""))).
Proof.
  intros H. cbn [Main.decimal].
  assert ((y <? 10) = false) as -> by (apply Z.ltb_ge; lia).
  assert ((y / 10 <? 10) = false) as ->
    by (apply Z.ltb_ge; Z.div_mod_to_equations; lia).
  assert ((y / 10 / 10 <? 10) = false) as ->
    by (apply Z.ltb_ge; Z.div_mod_to_equations; lia).
  rewrite !Z.div_div by lia. change (10 * 10 * 10) with 1000.
  change (10 * 10) with 100.
  rewrite (Z.mod_small (y / 1000)) by (Z.div_mod_to_equations; lia).
  reflexivity.
Qed.

Lemma strftime_ymd_shape (d : Main.Date) :
  1000 <= Main.year d <= 9999 -> 1 <= Main.month d <= 12 ->
  1 <= Main.day d <= 31 ->
  Spec.is_iso_date (Main.strftime_ymd d) = true /\
  Core.year_of (Main.strftime_ymd d) = Main.decimal 3 (Main.year d) /\
  String.length (Main.decimal 3 (Main.year d)) = 4%nat /\
  drop 4 (Main.strftime_ymd d)
  = ("-" ++ Main.two_digits (Main.month d) ++ "-"
     ++ Main.two_digits (Main.day d))%string.
Proof.
  intros Hy Hm Hd. unfold Main.strftime_ymd.
  rewrite (decimal_four_digits _ Hy).
  destruct (digit_is_digit (Main.year d / 1000)) as [Y1 N1];
    [Z.div_mod_to_equations; lia |].
  destruct (digit_is_digit (Main.year d / 100 mod 10)) as [Y2 N2];
    [Z.div_mod_to_equations; lia |].
  destruct (digit_is_digit (Main.year d / 10 mod 10)) as [Y3 N3];
    [Z.div_mod_to_equations; lia |].
  destruct (digit_is_digit (Main.year d mod 10)) as [Y4 N4];
    [Z.div_mod_to_equations; lia |].
  destruct (digit_is_digit (Main.month d / 10)) as [M1 _];
    [Z.div_mod_to_equations; lia |].
  destruct (digit_is_digit (Main.month d mod 10)) as [M2 _];
    [Z.div_mod_to_equations; lia |].
  destruct (digit_is_digit (Main.day d / 10)) as [D1 _];
    [Z.div_mod_to_equations; lia |].
  destruct (digit_is_digit (Main.day d mod 10)) as [D2 _];
    [Z.div_mod_to_equations; lia |].
  repeat split.
  - unfold Main.two_digits. simpl.
    rewrite Y1, Y2, Y3, Y4, M1, M2, D1, D2. reflexivity.
  - unfold Core.year_of.
    rewrite PyMore.split_unfold by discriminate.
    rewrite PyMore.partition_char_free; [reflexivity |].
    unfold free_of. cbn [all_chars].
    rewrite !andb_true_iff. repeat split; try reflexivity;
      apply negb_true_iff, Ascii.eqb_neq; assumption.
Qed.

End DateFacts.

(** X17: outside the leap-day case the research window is a date range in
    the form YYYY-MM-DD (for years from 1000 on): both ends are ISO dates,
    the end is today, the start is the same month and day
    [research_window_years] earlier, and the year the web research reads
    off each end with [split('-')[0]] is the four-digit year. *)
Theorem date_window_is_range (research_window_years : Z) (today : Main.Date)
    (start_date end_date : string) :
  Main.datetime (Main.year today) (Main.month today) (Main.day today)
  = Some today ->
  1000 <= Main.year today ->
  1000 <= Main.year today - research_window_years ->
  Main._calculate_date_window research_window_years today
  = Some (start_date, end_date) ->
  Spec.is_date_range (start_date, end_date) = true /\
  end_date = Main.strftime_ymd today /\
  drop 4 start_date = drop 4 end_date /\
  Core.year_of start_date
  = Main.decimal 3 (Main.year today - research_window_years) /\
  Core.year_of end_date = Main.decimal 3 (Main.year today) /\
  String.length (Core.year_of start_date) = 4%nat /\
  String.length (Core.year_of end_date) = 4%nat.
Proof.
  intros V Y1 Y2 W.
  apply datetime_valid in V as (_ & Hy & Hm & Hd).
  pose proof (days_in_month_bounds (Main.year today) (Main.month today)) as B.
  unfold Main._calculate_date_window in W.
  destruct (Main.datetime _ _ _) as [start|] eqn:S; [|discriminate].
  injection W as <- <-.
  apply datetime_valid in S as (-> & Hy' & _ & _).
  destruct (DateFacts.strftime_ymd_shape today) as (I1 & Y & L & D);
    [lia | lia | lia |].
  destruct (DateFacts.strftime_ymd_shape
              (Main.mkDate (Main.year today - research_window_years)
                           (Main.month today) (Main.day today)))
    as (I2 & Y' & L' & D'); [simpl; lia | simpl; lia | simpl; lia |].
  cbn [Main.year Main.month Main.day] in Y', L', D'.
  unfold Spec.is_date_range. cbn [fst snd].
  rewrite I1, I2, Y, Y', L, L', D, D'. repeat split.
Qed.

Lemma date_window_is_range_witness :
  Spec.is_date_range ("2022-11-04"%string, "2024-11-04"%string) = true /\
  Core.year_of "2022-11-04" = "2022"%string.
Proof.
  destruct (date_window_is_range 2 (Main.mkDate 2024 11 4)
              "2022-11-04" "2024-11-04" eq_refl)
    as (R & _ & _ & Y & _); [cbn; lia | cbn; lia | reflexivity |].
  split; [exact R | exact Y].
Defined.

(** * Properties of the report writer (src/core/report_writer.py) *)

Module ReportFacts.

Local Arguments String.append : simpl nomatch.

Lemma replace_char_app a b (x y : string) :
  replace_char a b (x ++ y) = replace_char a b x ++ replace_char a b y.
Proof. apply PyFacts.map_chars_app. Qed.

Lemma replace_char_removes a b (s : string) :
  a <> b -> free_of a (replace_char a b s) = true.
Proof.
  intros NE. induction s as [|c s IH]; [reflexivity |].
  unfold free_of, replace_char in *. simpl. rewrite IH, andb_true_r.
  destruct (Ascii.eqb c a) eqn:E; apply negb_true_iff.
  - apply Ascii.eqb_neq. congruence.
  - exact E.
Qed.

Lemma replace_char_keeps_free a b c (s : string) :
  b <> c -> free_of c s = true -> free_of c (replace_char a b s) = true.
Proof.
  intros NE. induction s as [|x s IH]; [reflexivity |].
  unfold free_of, replace_char in *. simpl. intros H.
  apply andb_true_iff in H as [H1 H2]. rewrite (IH H2), andb_true_r.
  destruct (Ascii.eqb x a); [|exact H1].
  apply negb_true_iff, Ascii.eqb_neq. exact NE.
Qed.

Lemma safe_client_name_free (client_name : string) :
  free_of " " (Report.safe_client_name client_name) = true /\
  free_of "/" (Report.safe_client_name client_name) = true.
Proof.
  unfold Report.safe_client_name. split.
  - apply replace_char_keeps_free; [discriminate |].
    apply replace_char_removes. discriminate.
  - apply replace_char_removes. discriminate.
Qed.

Lemma safe_client_name_app (a b : string) :
  Report.safe_client_name (a ++ b)
  = Report.safe_client_name a ++ Report.safe_client_name b.
Proof.
  unfold Report.safe_client_name. now rewrite !replace_char_app.
Qed.

Lemma filename_free c (client_name timestamp : string) :
  (c = " " \/ c = "/")%char -> free_of c timestamp = true ->
  free_of c (Report.filename client_name timestamp) = true.
Proof.
  intros C T. unfold Report.filename.
  destruct (safe_client_name_free client_name) as [S1 S2].
  rewrite !PyMore.free_of_app, T.
  destruct C as [-> | ->]; [rewrite S1 | rewrite S2]; reflexivity.
Qed.

Lemma report_content_header (crew_result client_name generated : string) :
  String.prefix "#" (Report.report_content crew_result client_name generated)
  = true.
Proof.
  unfold Report.report_content.
  destruct (String.prefix "#" crew_result) eqn:P; [exact P | reflexivity].
Qed.

End ReportFacts.

(** X18: the file of a saved report. When [_save_report] returns, the file
    name has no space and no path separator (the time stamp has none), so
    the report is an entry of the output directory itself; that entry holds
    the text written, every other file of the directory is as before, the
    text starts with a markdown heading and ends with the crew's result,
    which is written as it is when it already starts with [#]. *)
Theorem report_saved (open_error : string -> option string)
    (output_dir output_dir' : gmap string string)
    (crew_result client_name timestamp generated report_path : string) :
  free_of " " timestamp = true -> free_of "/" timestamp = true ->
  Report._save_report open_error output_dir crew_result client_name
                      timestamp generated
  = inr (output_dir', report_path) ->
  free_of " " report_path = true /\ free_of "/" report_path = true /\
  open_error report_path = None /\
  (exists header,
     output_dir' !! report_path = Some (header ++ crew_result)%string /\
     String.prefix "#" (header ++ crew_result) = true /\
     (String.prefix "#" crew_result = true -> header = ""%string)) /\
  (forall other, other <> report_path ->
     output_dir' !! other = output_dir !! other).
Proof.
  intros T1 T2. unfold Report._save_report.
  destruct (open_error _) eqn:O; [discriminate |]. intros [= <- <-].
  split; [apply ReportFacts.filename_free; [now left | exact T1] |].
  split; [apply ReportFacts.filename_free; [now right | exact T2] |].
  split; [exact O |]. split.
  - rewrite lookup_insert_eq.
    pose proof (ReportFacts.report_content_header crew_result client_name
                  generated) as H.
    unfold Report.report_content in *.
    destruct (String.prefix "#" crew_result) eqn:P.
    + exists ""%string. repeat split. exact P.
    + eexists. rewrite <- !PyFacts.app_assoc in *.
      split; [reflexivity |]. split; [exact H | discriminate].
  - intros other NE. now rewrite lookup_insert_ne.
Qed.

Lemma report_saved_witness :
  exists header,
    (<["audit_Acme_Wealth_20241104_101500.md"%string :=
         Report.report_content "Findings" "Acme Wealth" "November 04, 2024"]>
       (∅ : gmap string string))
      !! "audit_Acme_Wealth_20241104_101500.md"%string
    = Some (header ++ "Findings")%string.
Proof.
  destruct (report_saved (fun _ => None) ∅ _ "Findings" "Acme Wealth"
              "20241104_101500" "November 04, 2024" _
              eq_refl eq_refl eq_refl)
    as (_ & _ & _ & (header & H & _) & _).
  exists header. exact H.
Defined.

(** X19: two client names that differ only in one separator, each a space,
    a slash or an underscore at the same place, share one report file: a
    report for the second name saved within the same second replaces the
    report of the first, and the directory gains no file. *)
Theorem report_name_collision (open_error : string -> option string)
    (output_dir dir1 dir2 : gmap string string)
    (before after : string) (sep1 sep2 : ascii)
    (result1 result2 timestamp generated1 generated2 path1 path2 : string) :
  (sep1 = " " \/ sep1 = "/" \/ sep1 = "_")%char ->
  (sep2 = " " \/ sep2 = "/" \/ sep2 = "_")%char ->
  Report._save_report open_error output_dir result1
    (before ++ String sep1 after) timestamp generated1 = inr (dir1, path1) ->
  Report._save_report open_error dir1 result2
    (before ++ String sep2 after) timestamp generated2 = inr (dir2, path2) ->
  path2 = path1 /\
  dir2 !! path1
  = Some (Report.report_content result2 (before ++ String sep2 after)
            generated2) /\
  dom dir2 = dom dir1.
Proof.
  intros S1 S2. unfold Report._save_report.
  assert (Report.filename (before ++ String sep1 after) timestamp
          = Report.filename (before ++ String sep2 after) timestamp) as ->.
  { unfold Report.filename. rewrite !ReportFacts.safe_client_name_app.
    do 2 f_equal. f_equal.
    destruct S1 as [-> | [-> | ->]], S2 as [-> | [-> | ->]]; reflexivity. }
  destruct (open_error _) eqn:O; [discriminate |].
  intros [= <- <-] [= <- <-].
  split; [reflexivity |]. split; [now rewrite lookup_insert_eq |].
  rewrite !dom_insert_L.
  rewrite union_assoc_L, union_idemp_L. reflexivity.
Qed.

Lemma report_name_collision_witness :
  Report.filename "Acme/Wealth" "20241104_101500"
  = Report.filename "Acme Wealth" "20241104_101500".
Proof.
  destruct (report_name_collision (fun _ => None) ∅ _ _ "Acme" "Wealth"
              " " "/" "first" "second" "20241104_101500" "" "" _ _
              (or_introl eq_refl) (or_intror (or_introl eq_refl))
              eq_refl eq_refl)
    as (E & _ & _).
  exact E.
Defined.

(** * Properties of the final variant's web path
      (src/core/tool_researcher_final.py) *)



